(** * ca-signer: the /sign request handler of main.go

    A shallow embedding of the HTTP handler that main.go hands to
    ca.BootstrapServer, of SignRequest.Validate and of generateSubject,
    together with the properties of the request-authorization pipeline.

    The handler talks to the outside through three library surfaces:
    - encoding/json, which decodes the body into the tagged struct SignRequest;
    - crypto/x509, which checks the self-signature of the request;
    - ca.Provisioner, whose Token and Sign methods reach the upstream CA.
    The first is modelled on parsed JSON values, the leaf functions of the
    libraries are fields of the class [Library], and the two provisioner
    methods are the only effects of the handler: the handler is a program
    over those two calls, run against a state-passing provisioner.

    The second half covers the rest of main.go (the getters of Config,
    loadConfig, readPasswordFromFile and the startup sequence of main) and
    func sign of examples/client.go, each over a record of the calls it
    makes on the process, the file system and the network. *)

From Stdlib Require Import String Ascii DecimalString List Bool PeanoNat NArith Lia.
From Stdlib.Strings Require Byte.
Import ListNotations.
Local Open Scope string_scope.
Local Open Scope list_scope.

Set Implicit Arguments.
Set Warnings "-register-all".

(** ** Errors *)

(** Go error values as the handler sees them. [external] is an error made
    outside this program (the JSON decoder, crypto/x509, the CA client); it
    carries a status code when it implements render.StatusCodedError.
    The other two are the constructors of the errs package that main.go
    calls. *)
Inductive error : Type :=
| external (status : option nat) (msg : string)
| errs_BadRequest (msg : string)
| errs_BadRequestErr (err : error) (msg : string).

(** net/http status constants used by the program and by the renderer. *)
Definition StatusCreated : nat := 201.
Definition StatusBadRequest : nat := 400.
Definition StatusNotFound : nat := 404.
Definition StatusInternalServerError : nat := 500.

(** The status render.Error answers with: the code of a status-coded error,
    500 for any other error. errs.BadRequest and errs.BadRequestErr build
    errors coded 400. *)
Definition error_status (e : error) : nat :=
  match e with
  | external (Some code) _ => code
  | external None _ => StatusInternalServerError
  | errs_BadRequest _ => StatusBadRequest
  | errs_BadRequestErr _ _ => StatusBadRequest
  end.

(** The error was built by one of the two BadRequest constructors. *)
Definition is_BadRequest (e : error) : bool :=
  match e with
  | errs_BadRequest _ | errs_BadRequestErr _ _ => true
  | external _ _ => false
  end.

(** ** JSON values *)

(** A JSON text after the decoder's scanner accepted it. *)
Inductive json : Type :=
| JNull
| JBool (b : bool)
| JNumber (literal : string)
| JString (s : string)
| JArray (items : list json)
| JObject (members : list (string * json)).

(** The name encoding/json gives the kind of a value in an
    UnmarshalTypeError. *)
Definition json_kind (v : json) : string :=
  match v with
  | JNull => "null"
  | JBool _ => "bool"
  | JNumber _ => "number"
  | JString _ => "string"
  | JArray _ => "array"
  | JObject _ => "object"
  end.

(** ** Parsed certificate requests *)

(** x509.CertificateRequest: the fields the handler reads, and [Raw], the DER
    bytes that CheckSignature verifies. *)
Record x509_CertificateRequest (IP URL : Type) : Type := {
  Raw : string;
  Subject_CommonName : string;
  DNSNames : list string;
  EmailAddresses : list string;
  IPAddresses : list IP;
  URIs : list URL
}.

(** ** Library surface *)

(** What main.go uses from its imports and does not define itself. *)
Class Library : Type := {
  (** net.IP and its String method *)
  IP : Type;
  IP_String : IP -> string;
  (** *url.URL and its String method *)
  URL : Type;
  URL_String : URL -> string;
  (** api.TimeDuration and its zero value *)
  TimeDuration : Type;
  TimeDuration_zero : TimeDuration;
  (** *api.SignResponse *)
  SignResponse : Type;
  (** CheckSignature of x509.CertificateRequest: nil, or the error *)
  x509_CheckSignature : x509_CertificateRequest IP URL -> option error;
  (** UnmarshalJSON of api.CertificateRequest on the value of a member: the
      error, or the new inner pointer (nil for the empty string) *)
  CertificateRequest_UnmarshalJSON :
    json -> error + option (x509_CertificateRequest IP URL);
  (** UnmarshalJSON of api.TimeDuration on the value of a member *)
  TimeDuration_UnmarshalJSON : json -> error + TimeDuration;
  (** encoding/json's case folding of member names *)
  foldName : string -> string
}.

Section Program.

Context {L : Library}.

(** ** Requests *)

(** api.CertificateRequest embeds a *x509.CertificateRequest, nil when
    absent. *)
Record api_CertificateRequest : Type := {
  CertificateRequest : option (x509_CertificateRequest IP URL)
}.

(** type SignRequest struct, with its tags [json:"csr"] and
    [json:"notAfter"]. *)
Record SignRequest : Type := {
  CsrPEM : api_CertificateRequest;
  NotAfter : TimeDuration
}.

(** [var request SignRequest]: the zero value. *)
Definition SignRequest_zero : SignRequest :=
  {| CsrPEM := {| CertificateRequest := None |};
     NotAfter := TimeDuration_zero |}.

(** api.SignRequest as the handler fills it (NotBefore and TemplateData stay
    zero). *)
Record api_SignRequest : Type := {
  api_CsrPEM : api_CertificateRequest;
  OTT : string;
  api_NotAfter : TimeDuration
}.

(** The part of *http.Request the server hands to the handler. [Body] is
    what the JSON decoder's scanner makes of the body stream: the read or
    syntax error, or the first JSON value. *)
Record Request : Type := {
  Method : string;
  URL_Path : string;
  Header : list (string * list string);
  Body : error + json
}.

(** ** SignRequest.Validate *)

Definition Validate (s : SignRequest) : option error :=
  match CertificateRequest (CsrPEM s) with
  | None => Some (errs_BadRequest "missing csr")
  | Some cr =>
      match x509_CheckSignature cr with
      | Some err => Some (errs_BadRequestErr err "invalid csr")
      | None => None
      end
  end.

(** ** Decoding the body into SignRequest *)

Inductive field : Type := field_csr | field_notAfter.

(** The struct field a member name selects: the exact tag first, then the
    tag equal under case folding. *)
Definition lookupField (key : string) : option field :=
  if key =? "csr" then Some field_csr
  else if key =? "notAfter" then Some field_notAfter
  else if foldName key =? foldName "csr" then Some field_csr
  else if foldName key =? foldName "notAfter" then Some field_notAfter
  else None.

(** The members of an object are stored in order; a member that selects no
    field is skipped, and the error of a field's UnmarshalJSON ends the
    decoding. *)
Fixpoint decodeMembers (ms : list (string * json)) (req : SignRequest)
  : error + SignRequest :=
  match ms with
  | [] => inr req
  | (key, v) :: rest =>
      match lookupField key with
      | None => decodeMembers rest req
      | Some field_csr =>
          match CertificateRequest_UnmarshalJSON v with
          | inl err => inl err
          | inr cr =>
              decodeMembers rest
                {| CsrPEM := {| CertificateRequest := cr |};
                   NotAfter := NotAfter req |}
          end
      | Some field_notAfter =>
          match TimeDuration_UnmarshalJSON v with
          | inl err => inl err
          | inr d =>
              decodeMembers rest {| CsrPEM := CsrPEM req; NotAfter := d |}
          end
      end
  end.

(** [json.NewDecoder(r.Body).Decode(&request)]: null leaves the struct as it
    is, an object is stored member by member, any other value is an
    UnmarshalTypeError. *)
Definition json_Decode (body : error + json) (req : SignRequest)
  : error + SignRequest :=
  match body with
  | inl err => inl err
  | inr JNull => inr req
  | inr (JObject ms) => decodeMembers ms req
  | inr v =>
      inl (external None
             ("json: cannot unmarshal " ++ json_kind v ++
              " into Go value of type main.SignRequest"))
  end.

Definition field_eqb (f g : field) : bool :=
  match f, g with
  | field_csr, field_csr => true
  | field_notAfter, field_notAfter => true
  | _, _ => false
  end.

(** The value is an object with a member whose name selects [f]. *)
Definition hasField (f : field) (v : json) : bool :=
  match v with
  | JObject ms =>
      existsb (fun m => match lookupField (fst m) with
                        | Some g => field_eqb f g
                        | None => false
                        end) ms
  | _ => false
  end.

(** The value is an object with a member named [name], letter for
    letter. *)
Definition member_named (name : string) (v : json) : bool :=
  match v with
  | JObject ms => existsb (fun m => fst m =? name) ms
  | _ => false
  end.

(** ** generateSubject *)

(** The range loop of generateSubject: the first entry that is neither
    "127.0.0.1" nor "localhost". *)
Fixpoint generateSubject_loop (sans : list string) : option string :=
  match sans with
  | [] => None
  | s :: rest =>
      if negb (s =? "127.0.0.1") && negb (s =? "localhost") then Some s
      else generateSubject_loop rest
  end.

Definition generateSubject (sans : list string) : string :=
  match sans with
  | [] => "127.0.0.1"
  | first :: _ =>
      match generateSubject_loop sans with
      | Some s => s
      | None => first
      end
  end.

(** The two entries the loop passes over. *)
Definition is_placeholder (s : string) : Prop :=
  s = "127.0.0.1" \/ s = "localhost".

(** ** The SAN list and the subject built by the handler *)

(** [for _, x := range xs { sans = append(sans, render x) }] *)
Definition append_each {A : Type} (render : A -> string) (xs : list A)
  (sans : list string) : list string :=
  fold_left (fun acc x => acc ++ [render x]) xs sans.

(** Lines 278-285 of the handler. *)
Definition handler_sans (csr : x509_CertificateRequest IP URL) : list string :=
  let sans := [] ++ DNSNames csr in
  let sans := sans ++ EmailAddresses csr in
  let sans := append_each IP_String (IPAddresses csr) sans in
  let sans := append_each URL_String (URIs csr) sans in
  sans.

(** Lines 287-290 of the handler. *)
Definition handler_subject (csr : x509_CertificateRequest IP URL) : string :=
  let subject := Subject_CommonName csr in
  if subject =? "" then generateSubject (handler_sans csr) else subject.

(** ** The provisioner and the programs that call it *)

(** One call of the handler on the provisioner. *)
Inductive Call : Type :=
| CallToken (subject : string) (sans : list string)
| CallSign (req : api_SignRequest).

(** A computation whose only effects are calls of provisioner.Token and
    provisioner.Sign; each continuation receives what the call returned. *)
Inductive Prog (A : Type) : Type :=
| Ret (a : A)
| DoToken (subject : string) (sans : list string)
    (k : error + string -> Prog A)
| DoSign (req : api_SignRequest) (k : error + SignResponse -> Prog A).

Arguments Ret {A} a.
Arguments DoToken {A} subject sans k.
Arguments DoSign {A} req k.

(** *ca.Provisioner as the handler uses it. Each method reaches the CA over
    the network: it reads and changes the world [W]. *)
Record Provisioner (W : Type) : Type := {
  Token : string -> list string -> W -> (error + string) * W;
  Sign : api_SignRequest -> W -> (error + SignResponse) * W
}.

(** Runs a program against a provisioner: the result, the calls made in
    order, and the world after the last call. *)
Fixpoint run {W A : Type} (p : Provisioner W) (m : Prog A) (w : W)
  : A * list Call * W :=
  match m with
  | Ret a => (a, [], w)
  | DoToken subject sans k =>
      let '(res, w1) := Token p subject sans w in
      let '(a, calls, w2) := run p (k res) w1 in
      (a, CallToken subject sans :: calls, w2)
  | DoSign req k =>
      let '(res, w1) := Sign p req w in
      let '(a, calls, w2) := run p (k res) w1 in
      (a, CallSign req :: calls, w2)
  end.

(** ** Responses *)

(** What the handler does with its ResponseWriter: each path through the
    handler ends in one of three calls, or in the nil dereference of
    [csr.DNSNames] that net/http recovers from without an answer. *)
Inductive Response : Type :=
| http_NotFound
| render_Error (err : error)
| render_JSONStatus (v : SignResponse) (status : nat)
| panic_nil_dereference.

(** The status line of the answer, if one is written. *)
Definition Response_status (resp : Response) : option nat :=
  match resp with
  | http_NotFound => Some StatusNotFound
  | render_Error err => Some (error_status err)
  | render_JSONStatus _ status => Some status
  | panic_nil_dereference => None
  end.

(** ** The handler *)

(** The api.SignRequest literal of lines 298-302. *)
Definition forwarded (request : SignRequest) (token : string)
  : api_SignRequest :=
  {| api_CsrPEM := CsrPEM request;
     OTT := token;
     api_NotAfter := NotAfter request |}.

(** The http.HandlerFunc of main, lines 259-310. *)
Definition handler (r : Request) : Prog Response :=
  if negb (URL_Path r =? "/sign") then Ret http_NotFound
  else
    match json_Decode (Body r) SignRequest_zero with
    | inl err =>
        Ret (render_Error (errs_BadRequestErr err "error reading request body"))
    | inr request =>
        match Validate request with
        | Some err => Ret (render_Error err)
        | None =>
            match CertificateRequest (CsrPEM request) with
            | None => Ret panic_nil_dereference
            | Some csr =>
                let sans := handler_sans csr in
                let subject := handler_subject csr in
                DoToken subject sans (fun res =>
                  match res with
                  | inl err => Ret (render_Error err)
                  | inr token =>
                      DoSign (forwarded request token)
                        (fun res =>
                           match res with
                           | inl err => Ret (render_Error err)
                           | inr resp =>
                               Ret (render_JSONStatus resp StatusCreated)
                           end)
                  end)
            end
        end
    end.

(** One request served: the answer, the provisioner calls, the world
    afterwards. *)
Definition serve {W : Type} (p : Provisioner W) (r : Request) (w : W)
  : Response * list Call * W :=
  run p (handler r) w.

End Program.

Arguments Ret {L A} a.
Arguments DoToken {L A} subject sans k.
Arguments DoSign {L A} req k.

(** ** A small instance of the library surface

    Enough of the imported packages to run the handler on concrete
    requests: IPv4 addresses in dotted decimal, URLs kept as their text,
    durations in seconds, certificate chains as lists of PEM texts, and a
    signature check that accepts the DER texts starting with ["SIGNED"]. *)
Module Sample.

Definition decimal (n : nat) : string :=
  DecimalString.NilZero.string_of_uint (Nat.to_uint n).

Definition IPv4_String (ip : list nat) : string :=
  String.concat "." (map decimal ip).

Definition lower (c : ascii) : ascii :=
  let n := nat_of_ascii c in
  if (Nat.leb 65 n && Nat.leb n 90)%bool then ascii_of_nat (n + 32) else c.

Fixpoint lowercase (s : string) : string :=
  match s with
  | EmptyString => EmptyString
  | String c rest => String (lower c) (lowercase rest)
  end.

Definition csr_type : Type := x509_CertificateRequest (list nat) string.

Definition CheckSignature (cr : csr_type) : option error :=
  if prefix "SIGNED" (Raw cr) then None
  else Some (external None "x509: ECDSA verification failure").

(** A request for api.example.com that names no common name. *)
Definition api_example : csr_type :=
  {| Raw := "SIGNED api";
     Subject_CommonName := "";
     DNSNames := ["localhost"; "api.example.com"; "api.example.com"];
     EmailAddresses := ["ops@example.com"];
     IPAddresses := [[127; 0; 0; 1]; [10; 0; 0; 7]];
     URIs := ["spiffe://example.com/api"] |}.

(** The request of examples/client.go: a common name and nothing else. *)
Definition client_example : csr_type :=
  {| Raw := "SIGNED client";
     Subject_CommonName := "example.com";
     DNSNames := [];
     EmailAddresses := [];
     IPAddresses := [];
     URIs := [] |}.

(** The same request with a signature that does not verify. *)
Definition forged_example : csr_type :=
  {| Raw := "FORGED client";
     Subject_CommonName := "example.com";
     DNSNames := [];
     EmailAddresses := [];
     IPAddresses := [];
     URIs := [] |}.

(** A request that names nothing at all. *)
Definition anonymous_example : csr_type :=
  {| Raw := "SIGNED anonymous";
     Subject_CommonName := "";
     DNSNames := [];
     EmailAddresses := [];
     IPAddresses := [];
     URIs := [] |}.

(** A request without a common name whose only DNS name is empty. *)
Definition nameless_example : csr_type :=
  {| Raw := "SIGNED nameless";
     Subject_CommonName := "";
     DNSNames := [""];
     EmailAddresses := [];
     IPAddresses := [];
     URIs := [] |}.

Definition UnmarshalCSR (v : json) : error + option csr_type :=
  match v with
  | JString s =>
      if s =? "" then inr None
      else if s =? "PEM api" then inr (Some api_example)
      else if s =? "PEM client" then inr (Some client_example)
      else if s =? "PEM forged" then inr (Some forged_example)
      else if s =? "PEM nameless" then inr (Some nameless_example)
      else inl (external None "error decoding csr")
  | JNull => inr None
  | _ => inl (external None "error decoding csr")
  end.

Definition UnmarshalDuration (v : json) : error + nat :=
  match v with
  | JString s =>
      if s =? "1h" then inr 3600
      else if s =? "90s" then inr 90
      else inl (external None "time: invalid duration")
  | JNull => inr 0
  | _ => inl (external None "time: invalid duration")
  end.

#[global] Instance lib : Library :=
  {| IP := list nat;
     IP_String := IPv4_String;
     URL := string;
     URL_String := fun u => u;
     TimeDuration := nat;
     TimeDuration_zero := 0;
     SignResponse := list string;
     x509_CheckSignature := CheckSignature;
     CertificateRequest_UnmarshalJSON := UnmarshalCSR;
     TimeDuration_UnmarshalJSON := UnmarshalDuration;
     foldName := lowercase |}.

(** A provisioner whose world counts the calls it served: every token is
    minted, and a request is signed when its token is the one minted for
    the subject ["example.com"] or ["api.example.com"]. *)
Definition signer : Provisioner nat :=
  {| Token := fun subject _ w => (inr ("ott:" ++ subject)%string, S w);
     Sign := fun req w =>
       if (OTT req =? "ott:example.com") || (OTT req =? "ott:api.example.com")
       then (inr [("CERT " ++ OTT req)%string; "CERT intermediate"], S w)
       else (inl (external (Some 401) "token rejected"), S w) |}.

(** A provisioner whose CA refuses every signature. *)
Definition refusing : Provisioner nat :=
  {| Token := fun subject _ w => (inr ("ott:" ++ subject)%string, S w);
     Sign := fun _ w => (inl (external (Some 403) "forbidden"), S w) |}.

Definition post (path : string) (body : error + json) : Request :=
  {| Method := "POST";
     URL_Path := path;
     Header := [("Content-Type", ["application/json"])];
     Body := body |}.

(** The decoded form of a request body that carries [cr] and asks for
    [d] seconds. *)
Definition decoded (cr : csr_type) (d : nat) : SignRequest :=
  {| CsrPEM := {| CertificateRequest := Some cr |}; NotAfter := d |}.

Definition sign_api : Request :=
  post "/sign"
    (inr (JObject [("csr", JString "PEM api"); ("notAfter", JString "1h")])).

Definition sign_client : Request :=
  post "/sign" (inr (JObject [("csr", JString "PEM client")])).

Definition sign_forged : Request :=
  post "/sign" (inr (JObject [("csr", JString "PEM forged")])).

Definition sign_nameless : Request :=
  post "/sign" (inr (JObject [("csr", JString "PEM nameless")])).

Definition sign_without_csr : Request :=
  post "/sign" (inr (JObject [("notAfter", JString "1h")])).

Definition sign_truncated : Request :=
  post "/sign" (inl (external None "unexpected EOF")).

(** The body of [sign_client] sent with another method and no headers. *)
Definition sign_client_put : Request :=
  {| Method := "PUT";
     URL_Path := "/sign";
     Header := [];
     Body := inr (JObject [("csr", JString "PEM client")]) |}.

(** The body of [sign_client] with the member name in capitals. *)
Definition sign_client_capitals : Request :=
  post "/sign" (inr (JObject [("CSR", JString "PEM client")])).

Definition get_healthz : Request :=
  {| Method := "GET";
     URL_Path := "/healthz";
     Header := [];
     Body := inl (external None "EOF") |}.

End Sample.

(** * The rest of main.go: configuration, the password file, startup *)

(** ** Config and its getters *)

(** type Config struct. *)
Record Config : Type := {
  CaURL : string;
  RootCAPath : string;
  ProvisionerPasswordFile : string;
  Address : string;
  Service : string;
  LogFormat : string
}.

Definition GetAddress (c : Config) : string :=
  if negb (Address c =? "") then Address c else ":4443".

Definition GetServiceName (c : Config) : string :=
  if negb (Service c =? "") then Service c
  else "ca-signer.step.svc.cluster.local".

Definition GetRootCAPath (c : Config) : string :=
  if negb (RootCAPath c =? "") then RootCAPath c
  else "/home/step/certs/root_ca.crt".

Definition GetProvisionerPasswordPath (c : Config) : string :=
  if negb (ProvisionerPasswordFile c =? "") then ProvisionerPasswordFile c
  else "/home/step/password/password".

(** [var cfg Config]: the zero value, which yaml.Unmarshal fills. *)
Definition Config_zero : Config :=
  {| CaURL := ""; RootCAPath := ""; ProvisionerPasswordFile := "";
     Address := ""; Service := ""; LogFormat := "" |}.

(** ** Trimming the password *)

(** unicode/utf8 as bytes.TrimRightFunc uses it: the two decoders return the
    rune and the number of bytes it takes. They are consulted only at a byte
    that is not ASCII. *)
Class UTF8 : Type := {
  DecodeLastRune : list Byte.byte -> N * nat;
  DecodeRune : list Byte.byte -> N * nat
}.

(** utf8.RuneSelf: the bytes below it are runes of their own. *)
Definition RuneSelf : N := 128.

(** unicode.IsSpace: the Latin-1 spaces, and above them the White_Space
    property. *)
Definition IsSpace (r : N) : bool :=
  if (r <=? 255)%N then
    (r =? 9)%N || (r =? 10)%N || (r =? 11)%N || (r =? 12)%N ||
    (r =? 13)%N || (r =? 32)%N || (r =? 0x85)%N || (r =? 0xA0)%N
  else
    (r =? 0x1680)%N || ((0x2000 <=? r)%N && (r <=? 0x200a)%N) ||
    (r =? 0x2028)%N || (r =? 0x2029)%N || (r =? 0x202f)%N ||
    (r =? 0x205f)%N || (r =? 0x3000)%N.

Section Trim.

Context {U : UTF8}.

(** The loop of bytes.lastIndexFunc, [for i := len(s); i > 0; ...], from the
    index [i] down. [None] stands for the result -1. Every round lowers [i]
    by the size of a rune, at least one, so [fuel] rounds are enough when
    [i <= fuel]. *)
Fixpoint lastIndexFunc_loop (fuel : nat) (s : list Byte.byte)
  (f : N -> bool) (truth : bool) (i : nat) : option nat :=
  match fuel with
  | 0 => None
  | S fuel' =>
      if Nat.eqb i 0 then None
      else
        let b := Byte.to_N (nth (i - 1) s Byte.x00) in
        let '(r, size) :=
          if (RuneSelf <=? b)%N then DecodeLastRune (firstn i s)
          else (b, 1) in
        let i := i - size in
        if Bool.eqb (f r) truth then Some i
        else lastIndexFunc_loop fuel' s f truth i
  end.

Definition lastIndexFunc (s : list Byte.byte) (f : N -> bool) (truth : bool)
  : option nat :=
  lastIndexFunc_loop (length s) s f truth (length s).

(** bytes.TrimRightFunc: the slice up to and including the last rune that
    does not satisfy [f]. *)
Definition TrimRightFunc (s : list Byte.byte) (f : N -> bool)
  : list Byte.byte :=
  match lastIndexFunc s f false with
  | Some i =>
      if (RuneSelf <=? Byte.to_N (nth i s Byte.x00))%N then
        let '(_, wid) := DecodeRune (skipn i s) in
        firstn (i + wid) s
      else firstn (i + 1) s
  | None => firstn 0 s
  end.

(** readPasswordFromFile, over what os.ReadFile returns for each name. *)
Definition readPasswordFromFile (ReadFile : string -> error + list Byte.byte)
  (filename : string) : error + list Byte.byte :=
  match ReadFile filename with
  | inl err => inl err
  | inr password => inr (TrimRightFunc password IsSpace)
  end.

End Trim.

(** loadConfig, over os.ReadFile and over yaml.Unmarshal into a zero
    Config. *)
Definition loadConfig (ReadFile : string -> error + list Byte.byte)
  (yaml_Unmarshal : list Byte.byte -> Config -> error + Config)
  (file : string) : error + Config :=
  match ReadFile file with
  | inl err => inl err
  | inr data =>
      match yaml_Unmarshal data Config_zero with
      | inl err => inl err
      | inr cfg => inr cfg
      end
  end.

(** ** Startup: func main *)

Section Startup.

Context {L : Library} {U : UTF8}.

(** The state of the CA and of the network, as for [Provisioner]. *)
Variable W : Type.

(** The http.Server literal handed to ca.BootstrapServer. Its Handler is
    the closure over [provisioner]: [handler] run against it. *)
Record http_Server : Type := {
  Addr : string;
  ReadHeaderTimeout_seconds : nat;
  Handler : Request -> W -> Response * list Call * W
}.

(** What main takes from the process, the file system and its imports.
    ca.BootstrapServer and ListenAndServeTLS return nil or an error;
    ListenAndServeTLS returns nothing while the server keeps serving. *)
Record Host : Type := {
  os_Args : list string;
  os_ReadFile : string -> error + list Byte.byte;
  os_Getenv : string -> string;
  yaml_Unmarshal : list Byte.byte -> Config -> error + Config;
  ca_NewProvisioner :
    string -> string -> string -> list Byte.byte -> string ->
    W -> (error + Provisioner W) * W;
  ca_BootstrapServer : string -> http_Server -> W -> option error * W;
  ListenAndServeTLS : http_Server -> W -> option error * W
}.

(** The calls of main that reach the CA or the network. Log lines and the
    choice of the log formatter are left out. *)
Inductive Effect : Type :=
| eff_NewProvisioner (name kid caURL : string) (password : list Byte.byte)
    (rootFile : string)
| eff_Token (subject : string) (sans : list string)
| eff_BootstrapServer (token : string) (addr : string)
| eff_ListenAndServeTLS (addr : string).

(** How main ends when it does not stay in ListenAndServeTLS. *)
Inductive Stop : Type :=
| panic_index_out_of_range
| panic (err : error)
| os_Exit (code : nat).

(** Computations of main: they stop, or return a value, after some effects
    on the world. *)
Definition Boot (A : Type) : Type := W -> (Stop + A) * list Effect * W.

Definition boot_ret {A : Type} (a : A) : Boot A :=
  fun w => (inr a, [], w).

Definition boot_stop {A : Type} (s : Stop) : Boot A :=
  fun w => (inl s, [], w).

Definition boot_bind {A B : Type} (m : Boot A) (k : A -> Boot B) : Boot B :=
  fun w =>
    let '(r, effects, w1) := m w in
    match r with
    | inl s => (inl s, effects, w1)
    | inr a =>
        let '(r2, effects2, w2) := k a w1 in
        (r2, effects ++ effects2, w2)
    end.

Definition perform {A : Type} (eff : Effect) (call : W -> A * W) : Boot A :=
  fun w => let '(a, w1) := call w in (inr a, [eff], w1).

(** [if err != nil { panic(err) }] *)
Definition or_panic {A : Type} (r : error + A) : Boot A :=
  match r with
  | inl err => boot_stop (panic err)
  | inr a => boot_ret a
  end.

(** [if err != nil { log...; os.Exit(1) }] *)
Definition or_exit {A : Type} (r : error + A) : Boot A :=
  match r with
  | inl _ => boot_stop (os_Exit 1)
  | inr a => boot_ret a
  end.

(** [if err != nil { panic(err) }] for a call that returns only an error. *)
Definition panic_if (r : option error) : Boot unit :=
  match r with
  | Some err => boot_stop (panic err)
  | None => boot_ret tt
  end.

Notation "x <- m ;; k" := (boot_bind m (fun x => k))
  (at level 61, m at next level, right associativity).

(** func main of main.go. The value returned is the server that is
    listening. *)
Definition main (h : Host) : Boot http_Server :=
  file <- match nth_error (os_Args h) 1 with
          | Some file => boot_ret file
          | None => boot_stop panic_index_out_of_range
          end ;;
  config <- or_panic (loadConfig (os_ReadFile h) (yaml_Unmarshal h) file) ;;
  let provisionerName := os_Getenv h "PROVISIONER_NAME" in
  let provisionerKid := os_Getenv h "PROVISIONER_KID" in
  password <- or_panic (readPasswordFromFile (os_ReadFile h)
                          (GetProvisionerPasswordPath config)) ;;
  made <- perform
            (eff_NewProvisioner provisionerName provisionerKid (CaURL config)
               password (GetRootCAPath config))
            (ca_NewProvisioner h provisionerName provisionerKid
               (CaURL config) password (GetRootCAPath config)) ;;
  provisioner <- or_exit made ;;
  minted <- perform
              (eff_Token (GetServiceName config)
                 [GetServiceName config; "127.0.0.1"])
              (Token provisioner (GetServiceName config)
                 [GetServiceName config; "127.0.0.1"]) ;;
  token <- or_exit minted ;;
  let srv := {| Addr := GetAddress config;
                ReadHeaderTimeout_seconds := 15;
                Handler := serve provisioner |} in
  booted <- perform (eff_BootstrapServer token (Addr srv))
              (ca_BootstrapServer h token srv) ;;
  _ <- panic_if booted ;;
  returned <- perform (eff_ListenAndServeTLS (Addr srv))
                (ListenAndServeTLS h srv) ;;
  _ <- panic_if returned ;;
  boot_ret srv.

End Startup.

(** * examples/client.go: func sign *)

(** fmt's verb %d on a status code. *)
Definition fmt_d (n : nat) : string :=
  NilZero.string_of_uint (Nat.to_uint n).

(** The errors sign builds: errors.Wrap(err, msg) and errors.Errorf. *)
Inductive client_error : Type :=
| errors_Wrap (err : error) (msg : string)
| errors_Errorf (msg : string).

Section Client.

Context {L : Library}.

(** The network, and tls.Certificate. *)
Variables (W : Type) (Certificate : Type).

(** The tls.Config of the transport. RootCAs is the pool that received the
    bytes of root.crt through AppendCertsFromPEM. *)
Record tls_Config : Type := {
  Certificates : list Certificate;
  RootCAs : list (list Byte.byte)
}.

(** The part of *http.Response sign reads. *)
Record http_Response : Type := {
  StatusCode : nat;
  resp_Body : list Byte.byte
}.

(** What sign takes from the file system, the network and its imports.
    [client_Post] is the whole call client.Post: the http.Client follows
    redirects inside it, so one call may put more than one request on the
    wire, and the response it returns is the last answer. *)
Record ClientHost : Type := {
  json_Marshal : SignRequest -> error + list Byte.byte;
  tls_LoadX509KeyPair : string -> string -> error + Certificate;
  client_ReadFile : string -> error + list Byte.byte;
  client_Post :
    tls_Config -> string -> string -> list Byte.byte ->
    W -> (error + http_Response) * W;
  json_Decode_SignResponse : list Byte.byte -> error + SignResponse
}.

(** One call of client.Post, with its arguments. *)
Inductive Posted : Type :=
| posted (config : tls_Config) (url contentType : string)
    (body : list Byte.byte).

(** func sign: the result, the calls of client.Post, the network
    afterwards. *)
Definition sign (h : ClientHost) (req : SignRequest) (w : W)
  : (client_error + SignResponse) * list Posted * W :=
  match json_Marshal h req with
  | inl err => (inl (errors_Wrap err "error marshaling request"), [], w)
  | inr body =>
      match tls_LoadX509KeyPair h "client.crt" "client.key" with
      | inl err =>
          (inl (errors_Wrap err "error loading client certificate"), [], w)
      | inr clientCert =>
          match client_ReadFile h "root.crt" with
          | inl err =>
              (inl (errors_Wrap err "error reading CA certificate"), [], w)
          | inr caCert =>
              let config := {| Certificates := [clientCert];
                               RootCAs := [caCert] |} in
              let url := "https://127.0.0.1:4443/sign" in
              let '(res, w1) :=
                client_Post h config url "application/json" body w in
              let sent := [posted config url "application/json" body] in
              match res with
              | inl err =>
                  (inl (errors_Wrap err "error making request"), sent, w1)
              | inr resp =>
                  if negb (Nat.eqb (StatusCode resp) StatusCreated) then
                    (inl (errors_Errorf
                            ("unexpected status code: " ++
                             fmt_d (StatusCode resp))),
                     sent, w1)
                  else
                    match json_Decode_SignResponse h (resp_Body resp) with
                    | inl err =>
                        (inl (errors_Wrap err "error decoding response"),
                         sent, w1)
                    | inr signResp => (inr signResp, sent, w1)
                    end
              end
          end
      end
  end.

End Client.

(** * Vocabulary of the further properties *)

Section Vocabulary.

Context {L : Library}.

(** The request reaches the token mint: it is for /sign, its body decodes to
    [request], and [csr] is the request's CSR with a signature that
    verifies. *)
Definition accepted (r : Request) (request : SignRequest)
  (csr : x509_CertificateRequest IP URL) : Prop :=
  URL_Path r = "/sign" /\
  json_Decode (Body r) SignRequest_zero = inr request /\
  CertificateRequest (CsrPEM request) = Some csr /\
  x509_CheckSignature csr = None.

(** The members of an object whose names select a field of SignRequest. *)
Definition known_members (ms : list (string * json)) : list (string * json) :=
  filter (fun m => match lookupField (fst m) with
                   | Some _ => true
                   | None => false
                   end) ms.

End Vocabulary.

(** Every byte is below utf8.RuneSelf. *)
Definition is_ASCII (s : list Byte.byte) : Prop :=
  Forall (fun b => (Byte.to_N b < RuneSelf)%N) s.

(** The byte is a space for unicode.IsSpace. *)
Definition space_byte (b : Byte.byte) : Prop :=
  IsSpace (Byte.to_N b) = true.

Section StartupVocabulary.

Context {L : Library} {U : UTF8}.

Variable W : Type.

(** The arguments name a configuration file that loads, and the password
    file that configuration points to can be read. *)
Definition configured (h : Host W) (file : string) (config : Config)
  (password : list Byte.byte) : Prop :=
  nth_error (os_Args h) 1 = Some file /\
  loadConfig (os_ReadFile h) (yaml_Unmarshal h) file = inr config /\
  readPasswordFromFile (os_ReadFile h) (GetProvisionerPasswordPath config) =
    inr password.

(** The call of ca.NewProvisioner main makes for a configuration. *)
Definition call_NewProvisioner (h : Host W) (config : Config)
  (password : list Byte.byte) : W -> (error + Provisioner W) * W :=
  ca_NewProvisioner h (os_Getenv h "PROVISIONER_NAME")
    (os_Getenv h "PROVISIONER_KID") (CaURL config) password
    (GetRootCAPath config).

Definition NewProvisioner_effect (h : Host W) (config : Config)
  (password : list Byte.byte) : Effect :=
  eff_NewProvisioner (os_Getenv h "PROVISIONER_NAME")
    (os_Getenv h "PROVISIONER_KID") (CaURL config) password
    (GetRootCAPath config).

(** The bootstrap token is minted for the service name, with the service
    name and the loopback address as SANs. *)
Definition bootstrap_sans (config : Config) : list string :=
  [GetServiceName config; "127.0.0.1"].

(** The server main builds around a provisioner. *)
Definition server_of (config : Config) (p : Provisioner W) : http_Server W :=
  {| Addr := GetAddress config;
     ReadHeaderTimeout_seconds := 15;
     Handler := serve p |}.

End StartupVocabulary.

(** ** A small host for the server and for the client

    A file system with a configuration file, an empty configuration file
    and a password file, a YAML reader that knows the two configuration
    texts, decoders that treat every byte above ASCII as an invalid rune, and
    a CA that hands out the sample provisioners to the right password. *)
Module SampleHost.

#[global] Instance invalid_above_ascii : UTF8 :=
  {| DecodeLastRune := fun _ => (0xFFFD%N, 1);
     DecodeRune := fun _ => (0xFFFD%N, 1) |}.

Definition bytes (s : string) : list Byte.byte := list_byte_of_string s.

Definition text (b : list Byte.byte) : string := string_of_list_byte b.

Definition line_feed : string := String (ascii_of_nat 10) EmptyString.

Definition tab : string := String (ascii_of_nat 9) EmptyString.

Definition config_text : string :=
  "caURL: https://ca.example.com" ++ line_feed ++
  "address: :8443" ++ line_feed.

Definition password_text : string := "s3cret " ++ tab ++ line_feed.

Definition no_such_file : error :=
  external None "open: no such file or directory".

Definition ReadFile (name : string) : error + list Byte.byte :=
  if name =? "/etc/ca-signer/config.yaml" then inr (bytes config_text)
  else if name =? "/etc/ca-signer/empty.yaml" then inr []
  else if name =? "/home/step/password/password" then
    inr (bytes password_text)
  else if name =? "/home/step/blank" then inr (bytes (" " ++ line_feed))
  else if name =? "root.crt" then inr (bytes "PEM root")
  else inl no_such_file.

Definition Unmarshal (data : list Byte.byte) (cfg : Config)
  : error + Config :=
  if text data =? config_text then
    inr {| CaURL := "https://ca.example.com";
           RootCAPath := RootCAPath cfg;
           ProvisionerPasswordFile := ProvisionerPasswordFile cfg;
           Address := ":8443";
           Service := Service cfg;
           LogFormat := LogFormat cfg |}
  else if text data =? "" then inr cfg
  else inl (external None "error converting YAML to JSON").

Definition the_config : Config :=
  {| CaURL := "https://ca.example.com";
     RootCAPath := "";
     ProvisionerPasswordFile := "";
     Address := ":8443";
     Service := "";
     LogFormat := "" |}.

Definition Getenv (name : string) : string :=
  if name =? "PROVISIONER_NAME" then "autocert" else "".

(** A provisioner that cannot mint. *)
Definition tokenless : Provisioner nat :=
  {| Token := fun _ _ w =>
       (inl (external (Some 500) "error generating token"), S w);
     Sign := fun _ w => (inl (external (Some 403) "forbidden"), S w) |}.

Definition NewProvisioner (name kid caURL : string)
  (password : list Byte.byte) (rootFile : string) (w : nat)
  : (error + Provisioner nat) * nat :=
  if text password =? "s3cret" then (inr Sample.signer, S w)
  else (inl (external (Some 401) "error decrypting provisioner key"), S w).

Definition host (args : list string) : Host nat :=
  {| os_Args := args;
     os_ReadFile := ReadFile;
     os_Getenv := Getenv;
     yaml_Unmarshal := Unmarshal;
     ca_NewProvisioner := NewProvisioner;
     ca_BootstrapServer := fun _ _ w => (None, S w);
     ListenAndServeTLS := fun _ w => (None, w) |}.

(** The command line of the Dockerfile. *)
Definition docker : Host nat :=
  host ["/ca-signer"; "/etc/ca-signer/config.yaml"].

(** The client's side: a key pair on disk, and a network that answers every
    request with the status [status] and the body [body]. *)
Definition client (status : nat) (body : string)
  : ClientHost nat string :=
  {| json_Marshal := fun _ => inr (bytes "{}");
     tls_LoadX509KeyPair := fun certFile keyFile =>
       inr (certFile ++ "+" ++ keyFile)%string;
     client_ReadFile := ReadFile;
     client_Post := fun _ _ _ _ w =>
       (inr {| StatusCode := status; resp_Body := bytes body |}, S w);
     json_Decode_SignResponse := fun b => inr [text b] |}.

(** A client without its key pair. *)
Definition client_without_key : ClientHost nat string :=
  {| json_Marshal := fun _ => inr (bytes "{}");
     tls_LoadX509KeyPair := fun _ _ => inl no_such_file;
     client_ReadFile := ReadFile;
     client_Post := fun _ _ _ _ w =>
       (inr {| StatusCode := 201; resp_Body := [] |}, S w);
     json_Decode_SignResponse := fun b => inr [text b] |}.

End SampleHost.

(** * Properties *)

Section Properties.

Context {L : Library}.

(** ** The SAN list *)

Lemma append_each_map (A : Type) (render : A -> string) (xs : list A) :
  forall sans, append_each render xs sans = sans ++ map render xs.
Proof.
  unfold append_each.
  induction xs as [| x xs IH]; intros sans; simpl.
  - now rewrite app_nil_r.
  - rewrite IH, <- app_assoc. reflexivity.
Qed.

Lemma handler_sans_concat (csr : x509_CertificateRequest IP URL) :
  handler_sans csr =
  DNSNames csr ++ EmailAddresses csr ++
  map IP_String (IPAddresses csr) ++ map URL_String (URIs csr).
Proof.
  unfold handler_sans.
  rewrite !append_each_map. simpl.
  now rewrite <- !app_assoc.
Qed.

(** ** generateSubject *)

Lemma placeholder_test (s : string) :
  negb (s =? "127.0.0.1") && negb (s =? "localhost") = false <->
  is_placeholder s.
Proof.
  unfold is_placeholder.
  destruct (String.eqb_spec s "127.0.0.1") as [E1 | N1];
    destruct (String.eqb_spec s "localhost") as [E2 | N2]; simpl;
    intuition congruence.
Qed.

Lemma empty_not_placeholder : ~ is_placeholder "".
Proof. intros [H | H]; discriminate H. Qed.

Lemma generateSubject_loop_Some (sans : list string) (s : string) :
  generateSubject_loop sans = Some s <->
  exists pre post,
    sans = pre ++ s :: post /\ Forall is_placeholder pre /\ ~ is_placeholder s.
Proof.
  induction sans as [| x rest IH]; simpl.
  - split; [discriminate |].
    intros (pre & post & E & _). destruct pre; discriminate E.
  - destruct (negb (x =? "127.0.0.1") && negb (x =? "localhost")) eqn:T.
    + assert (Hx : ~ is_placeholder x).
      { intros P. apply placeholder_test in P. congruence. }
      split.
      * intros E. injection E as <-. exists [], rest. auto.
      * intros (pre & post & E & Hpre & _).
        destruct pre as [| y pre]; simpl in E; injection E as -> E'.
        -- reflexivity.
        -- inversion Hpre; subst. contradiction.
    + apply placeholder_test in T. rewrite IH. split.
      * intros (pre & post & -> & Hpre & Hs).
        exists (x :: pre), post. auto.
      * intros (pre & post & E & Hpre & Hs).
        destruct pre as [| y pre]; simpl in E; injection E as -> E'.
        -- contradiction.
        -- inversion Hpre; subst. eauto.
Qed.

Lemma generateSubject_loop_None (sans : list string) :
  generateSubject_loop sans = None <-> Forall is_placeholder sans.
Proof.
  induction sans as [| x rest IH]; simpl.
  - split; auto.
  - destruct (negb (x =? "127.0.0.1") && negb (x =? "localhost")) eqn:T.
    + split; [discriminate |].
      intros H. inversion H; subst.
      match goal with P : is_placeholder x |- _ =>
        apply placeholder_test in P; congruence end.
    + apply placeholder_test in T. rewrite IH. split.
      * auto.
      * intros H. now inversion H.
Qed.

(** ** The paths through the handler *)

Lemma path_test (r : Request) :
  URL_Path r = "/sign" -> negb (URL_Path r =? "/sign") = false.
Proof. intros ->. reflexivity. Qed.

Lemma validated_has_csr (request : SignRequest) :
  Validate request = None ->
  exists csr,
    CertificateRequest (CsrPEM request) = Some csr /\
    x509_CheckSignature csr = None.
Proof.
  unfold Validate.
  destruct (CertificateRequest (CsrPEM request)) as [csr |]; [| discriminate].
  destruct (x509_CheckSignature csr) eqn:S; [discriminate |].
  intros _. eauto.
Qed.

(** The program of a request that passed decoding and validation: it starts
    with the token mint for the derived identity. *)
Lemma handler_accepted (r : Request) (request : SignRequest)
  (csr : x509_CertificateRequest IP URL) :
  URL_Path r = "/sign" ->
  json_Decode (Body r) SignRequest_zero = inr request ->
  Validate request = None ->
  CertificateRequest (CsrPEM request) = Some csr ->
  handler r =
  DoToken (handler_subject csr) (handler_sans csr) (fun res =>
    match res with
    | inl err => Ret (render_Error err)
    | inr token =>
        DoSign (forwarded request token) (fun res =>
          match res with
          | inl err => Ret (render_Error err)
          | inr resp => Ret (render_JSONStatus resp StatusCreated)
          end)
    end).
Proof.
  intros Hpath Hdec Hval Hcsr.
  unfold handler.
  rewrite (path_test r Hpath), Hdec, Hval, Hcsr.
  reflexivity.
Qed.

(** X15. Validation stands between the decoder and the first use of the
    inner pointer: no request makes the handler dereference nil. *)
Lemma handler_never_panics (W : Type) (p : Provisioner W) (r : Request)
  (w : W) :
  fst (fst (serve p r w)) <> panic_nil_dereference.
Proof.
  unfold serve, handler.
  destruct (negb (URL_Path r =? "/sign")); [discriminate |].
  destruct (json_Decode (Body r) SignRequest_zero) as [err | request];
    [discriminate |].
  destruct (Validate request) eqn:V; [discriminate |].
  destruct (validated_has_csr request V) as (csr & -> & _).
  simpl.
  destruct (Token p _ _ w) as [[err | token] w1]; simpl; [discriminate |].
  destruct (Sign p _ w1) as [[err | resp] w2]; simpl; discriminate.
Qed.

(** A member list without a [csr] member leaves the inner pointer as it
    was. *)
Lemma decodeMembers_keeps_csr (ms : list (string * json)) :
  hasField field_csr (JObject ms) = false ->
  forall req req',
    decodeMembers ms req = inr req' -> CsrPEM req' = CsrPEM req.
Proof.
  induction ms as [| [key v] rest IH]; simpl; intros Hno req req' Hdec.
  - now injection Hdec as <-.
  - apply orb_false_iff in Hno as [Hkey Hrest].
    destruct (lookupField key) as [[|] |].
    + discriminate Hkey.
    + destruct (TimeDuration_UnmarshalJSON v) as [err | d]; [discriminate |].
      now rewrite (IH Hrest _ _ Hdec).
    + exact (IH Hrest _ _ Hdec).
Qed.

Lemma json_Decode_keeps_csr (v : json) (req req' : SignRequest) :
  hasField field_csr v = false ->
  json_Decode (inr v) req = inr req' -> CsrPEM req' = CsrPEM req.
Proof.
  intros Hno.
  destruct v; simpl; try discriminate.
  - intros E. now injection E as <-.
  - now apply decodeMembers_keeps_csr.
Qed.

(** ** Identity derivation *)

(** C1. The subject the handler derives is the common name of the request
    when that name is not empty. When it is empty, the subject is
    "127.0.0.1" for an empty SAN list, and otherwise the first SAN entry
    that is neither "127.0.0.1" nor "localhost", or the first entry of the
    list when every entry is one of the two. The SAN list is the same in all
    cases, and subject and list are what an accepted request passes to the
    token mint. *)
Theorem C1_derived_subject (csr : x509_CertificateRequest IP URL) :
  (Subject_CommonName csr <> "" ->
   handler_subject csr = Subject_CommonName csr) /\
  (Subject_CommonName csr = "" -> handler_sans csr = [] ->
   handler_subject csr = "127.0.0.1") /\
  (Subject_CommonName csr = "" -> handler_sans csr <> [] ->
   (exists pre s post,
      handler_sans csr = pre ++ s :: post /\
      Forall is_placeholder pre /\ ~ is_placeholder s /\
      handler_subject csr = s) \/
   (Forall is_placeholder (handler_sans csr) /\
    exists first rest,
      handler_sans csr = first :: rest /\ handler_subject csr = first)) /\
  (forall (r : Request) (request : SignRequest),
     URL_Path r = "/sign" ->
     json_Decode (Body r) SignRequest_zero = inr request ->
     Validate request = None ->
     CertificateRequest (CsrPEM request) = Some csr ->
     exists k, handler r = DoToken (handler_subject csr) (handler_sans csr) k).
Proof.
  unfold handler_subject.
  repeat split.
  - intros Hcn. apply String.eqb_neq in Hcn. now rewrite Hcn.
  - intros -> ->. reflexivity.
  - intros -> Hsans. simpl.
    destruct (handler_sans csr) as [| first rest] eqn:E; [contradiction |].
    unfold generateSubject.
    destruct (generateSubject_loop (first :: rest)) as [s |] eqn:Loop.
    + left. apply generateSubject_loop_Some in Loop.
      destruct Loop as (pre & post & Hsplit & Hpre & Hs).
      exists pre, s, post. auto.
    + right. apply generateSubject_loop_None in Loop. eauto.
  - intros r request Hpath Hdec Hval Hcsr.
    rewrite (handler_accepted r Hpath Hdec Hval Hcsr).
    unfold handler_subject. eauto.
Qed.

(** The three derivations the specification lists, and the one for a common
    name. *)
Example generateSubject_skips_placeholders :
  generateSubject ["localhost"; "127.0.0.1"; "api.example.com"] =
  "api.example.com".
Proof. reflexivity. Qed.

Example generateSubject_falls_back :
  generateSubject ["localhost"] = "localhost".
Proof. reflexivity. Qed.

Example generateSubject_empty : generateSubject [] = "127.0.0.1".
Proof. reflexivity. Qed.

(** C3. For a request that passed validation, the SAN list the handler
    builds is the DNS names, then the email addresses, then the IP addresses
    as strings, then the URIs as strings, every entry kept; the subject is
    derived from that list and the token mint is called with it. *)
Theorem C3_san_sequence (W : Type) (p : Provisioner W) (r : Request)
  (request : SignRequest) (csr : x509_CertificateRequest IP URL) (w : W) :
  URL_Path r = "/sign" ->
  json_Decode (Body r) SignRequest_zero = inr request ->
  Validate request = None ->
  CertificateRequest (CsrPEM request) = Some csr ->
  let sans :=
    DNSNames csr ++ EmailAddresses csr ++
    map IP_String (IPAddresses csr) ++ map URL_String (URIs csr) in
  handler_sans csr = sans /\
  handler_subject csr =
    (if Subject_CommonName csr =? "" then generateSubject sans
     else Subject_CommonName csr) /\
  exists subject later,
    snd (fst (serve p r w)) = CallToken subject sans :: later /\
    forall subject' sans',
      In (CallToken subject' sans') (snd (fst (serve p r w))) -> sans' = sans.
Proof.
  intros Hpath Hdec Hval Hcsr sans.
  assert (Hsans : handler_sans csr = sans) by apply handler_sans_concat.
  split; [exact Hsans |].
  split; [unfold handler_subject; now rewrite Hsans |].
  unfold serve. rewrite (handler_accepted r Hpath Hdec Hval Hcsr), Hsans.
  simpl.
  destruct (Token p (handler_subject csr) sans w) as [[err | token] w1]; simpl.
  - exists (handler_subject csr), []. split; [reflexivity |].
    intros s' l' [E | []]. now injection E.
  - destruct (Sign p (forwarded request token) w1) as [[err | resp] w2]; simpl.
    + eexists _, _. split; [reflexivity |].
      intros s' l' [E | [E | []]]; [now injection E | discriminate E].
    + eexists _, _. split; [reflexivity |].
      intros s' l' [E | [E | []]]; [now injection E | discriminate E].
Qed.

(** C7, as the code has it. The derived subject is the empty string exactly
    when the common name is empty and the first SAN entry that is neither
    "127.0.0.1" nor "localhost" is the empty string; so it is not empty when
    the common name is not empty or when no SAN entry is empty. *)
Theorem C7_subject_nonempty_amended (csr : x509_CertificateRequest IP URL) :
  (handler_subject csr = "" <->
   Subject_CommonName csr = "" /\
   exists pre post,
     handler_sans csr = pre ++ "" :: post /\ Forall is_placeholder pre) /\
  (Subject_CommonName csr <> "" \/
   Forall (fun s => s <> "") (handler_sans csr) ->
   handler_subject csr <> "").
Proof.
  assert (Hiff : handler_subject csr = "" <->
                 Subject_CommonName csr = "" /\
                 exists pre post,
                   handler_sans csr = pre ++ "" :: post /\
                   Forall is_placeholder pre).
  { unfold handler_subject.
    destruct (String.eqb_spec (Subject_CommonName csr) "") as [Hcn | Hcn].
    - unfold generateSubject.
      destruct (handler_sans csr) as [| first rest] eqn:E.
      + split; [discriminate |].
        intros (_ & pre & post & Hsplit & _). destruct pre; discriminate.
      + destruct (generateSubject_loop (first :: rest)) as [s |] eqn:Loop.
        * split.
          -- intros ->. split; [exact Hcn |].
             apply generateSubject_loop_Some in Loop.
             destruct Loop as (pre & post & Hsplit & Hpre & _). eauto.
          -- intros (_ & pre & post & Hsplit & Hpre).
             assert (Found : generateSubject_loop (first :: rest) = Some "").
             { apply generateSubject_loop_Some.
               exists pre, post. auto using empty_not_placeholder. }
             congruence.
        * apply generateSubject_loop_None in Loop. split.
          -- intros ->. inversion Loop; subst.
             now exfalso; apply empty_not_placeholder.
          -- intros (_ & pre & post & Hsplit & _).
             rewrite Hsplit in Loop. apply Forall_app in Loop as [_ Hrest].
             inversion Hrest; subst.
             now exfalso; apply empty_not_placeholder.
    - split; [contradiction | intros [H _]; contradiction]. }
  split; [exact Hiff |].
  intros Hyp Hempty. apply Hiff in Hempty.
  destruct Hempty as (Hcn & pre & post & Hsplit & _).
  destruct Hyp as [Hne | Hall]; [contradiction |].
  rewrite Hsplit in Hall. apply Forall_app in Hall as [_ Hrest].
  inversion Hrest; subst. congruence.
Qed.

(** ** The pipeline *)

(** The handler renders a value through render.JSONStatus on one path only,
    and there the status is 201. *)
Lemma JSONStatus_only_Created (W : Type) (p : Provisioner W) (r : Request)
  (w : W) (v : SignResponse) (status : nat) :
  fst (fst (serve p r w)) = render_JSONStatus v status ->
  status = StatusCreated.
Proof.
  unfold serve, handler.
  destruct (negb (URL_Path r =? "/sign")); [discriminate |].
  destruct (json_Decode (Body r) SignRequest_zero) as [err | request];
    [discriminate |].
  destruct (Validate request); [discriminate |].
  destruct (CertificateRequest (CsrPEM request)) as [csr |]; [| discriminate].
  simpl.
  destruct (Token p _ _ w) as [[err | token] w1]; simpl; [discriminate |].
  destruct (Sign p _ w1) as [[err | resp] w2]; simpl; [discriminate |].
  intros E. now injection E.
Qed.

(** C2. When the body decodes to a request that passes validation and both
    provisioner calls succeed, the handler mints one token, then signs once
    with that token, and answers 201 Created with the value the sign call
    returned; no other path of the handler answers with a rendered value,
    so 201 is its only success status. *)
Theorem C2_success (W : Type) (p : Provisioner W) (r : Request)
  (request : SignRequest) (csr : x509_CertificateRequest IP URL)
  (token : string) (resp : SignResponse) (w w1 w2 : W) :
  URL_Path r = "/sign" ->
  json_Decode (Body r) SignRequest_zero = inr request ->
  Validate request = None ->
  CertificateRequest (CsrPEM request) = Some csr ->
  Token p (handler_subject csr) (handler_sans csr) w = (inr token, w1) ->
  Sign p (forwarded request token) w1 = (inr resp, w2) ->
  serve p r w =
    (render_JSONStatus resp StatusCreated,
     [CallToken (handler_subject csr) (handler_sans csr);
      CallSign (forwarded request token)],
     w2) /\
  Response_status (fst (fst (serve p r w))) = Some 201 /\
  (forall (p' : Provisioner W) (r' : Request) (w' : W) v status,
     fst (fst (serve p' r' w')) = render_JSONStatus v status ->
     status = 201).
Proof.
  intros Hpath Hdec Hval Hcsr Htoken Hsign.
  assert (Hserve :
    serve p r w =
      (render_JSONStatus resp StatusCreated,
       [CallToken (handler_subject csr) (handler_sans csr);
        CallSign (forwarded request token)],
       w2)).
  { unfold serve. rewrite (handler_accepted r Hpath Hdec Hval Hcsr).
    simpl. rewrite Htoken. simpl. rewrite Hsign. reflexivity. }
  split; [exact Hserve |].
  split; [now rewrite Hserve |].
  intros p' r' w' v status. apply JSONStatus_only_Created.
Qed.

(** C5. When the token mint succeeds and the sign call fails, the handler
    renders the error of the sign call as it received it, so the answer
    carries that error's own status, and the calls made are the one token
    mint and the one sign call: there is no second mint. *)
Theorem C5_sign_failure (W : Type) (p : Provisioner W) (r : Request)
  (request : SignRequest) (csr : x509_CertificateRequest IP URL)
  (token : string) (err : error) (w w1 w2 : W) :
  URL_Path r = "/sign" ->
  json_Decode (Body r) SignRequest_zero = inr request ->
  Validate request = None ->
  CertificateRequest (CsrPEM request) = Some csr ->
  Token p (handler_subject csr) (handler_sans csr) w = (inr token, w1) ->
  Sign p (forwarded request token) w1 = (inl err, w2) ->
  serve p r w =
    (render_Error err,
     [CallToken (handler_subject csr) (handler_sans csr);
      CallSign (forwarded request token)],
     w2) /\
  Response_status (fst (fst (serve p r w))) = Some (error_status err).
Proof.
  intros Hpath Hdec Hval Hcsr Htoken Hsign.
  assert (Hserve :
    serve p r w =
      (render_Error err,
       [CallToken (handler_subject csr) (handler_sans csr);
        CallSign (forwarded request token)],
       w2)).
  { unfold serve. rewrite (handler_accepted r Hpath Hdec Hval Hcsr).
    simpl. rewrite Htoken. simpl. rewrite Hsign. reflexivity. }
  split; [exact Hserve | now rewrite Hserve].
Qed.

(** ** Rejected requests *)

(** C8. When decoding the body into SignRequest fails, the handler answers
    with the BadRequest error that wraps the decoder's error under the
    message "error reading request body" and does nothing else: its program
    is that single answer, and no provisioner call is made. *)
Theorem C8_decode_failure (W : Type) (p : Provisioner W) (r : Request)
  (w : W) (perr : error) :
  URL_Path r = "/sign" ->
  json_Decode (Body r) SignRequest_zero = inl perr ->
  handler r =
    Ret (render_Error (errs_BadRequestErr perr "error reading request body")) /\
  serve p r w =
    (render_Error (errs_BadRequestErr perr "error reading request body"),
     [], w) /\
  Response_status (fst (fst (serve p r w))) = Some 400.
Proof.
  intros Hpath Hdec.
  assert (Hprog : handler r =
    Ret (render_Error (errs_BadRequestErr perr "error reading request body"))).
  { unfold handler. now rewrite (path_test r Hpath), Hdec. }
  unfold serve. rewrite Hprog. simpl. auto.
Qed.

(** C4, as the code has it. On the path /sign, a body that is a JSON value
    with no member that selects the csr field, by its exact name or by a
    name equal to it under the decoder's case folding, is answered with a
    BadRequest error (status 400), and so is a request whose signature
    check fails, with the error of the check wrapped under "invalid csr";
    in both cases no provisioner call is made and the world of the
    provisioner is untouched. *)
Theorem C4_bad_request_no_calls (W : Type) (p : Provisioner W) (r : Request)
  (w : W) :
  URL_Path r = "/sign" ->
  (forall v : json,
     Body r = inr v -> hasField field_csr v = false ->
     exists err,
       is_BadRequest err = true /\ error_status err = 400 /\
       serve p r w = (render_Error err, [], w)) /\
  (forall (request : SignRequest) (csr : x509_CertificateRequest IP URL)
          (sigerr : error),
     json_Decode (Body r) SignRequest_zero = inr request ->
     CertificateRequest (CsrPEM request) = Some csr ->
     x509_CheckSignature csr = Some sigerr ->
     serve p r w =
       (render_Error (errs_BadRequestErr sigerr "invalid csr"), [], w) /\
     Response_status (fst (fst (serve p r w))) = Some 400).
Proof.
  intros Hpath. split.
  - intros v Hbody Hno.
    unfold serve, handler. rewrite (path_test r Hpath), Hbody.
    destruct (json_Decode (inr v) SignRequest_zero) as [perr | request] eqn:D.
    + exists (errs_BadRequestErr perr "error reading request body").
      repeat split.
    + pose proof (json_Decode_keeps_csr v _ Hno D) as Hkeep.
      unfold Validate. rewrite Hkeep. simpl.
      exists (errs_BadRequest "missing csr"). repeat split.
  - intros request csr sigerr Hdec Hcsr Hsig.
    unfold serve, handler. rewrite (path_test r Hpath), Hdec.
    unfold Validate. rewrite Hcsr, Hsig. simpl. auto.
Qed.

(** ** Routing *)

(** C6, at the failing input. A GET request for /healthz is answered by
    http.NotFound, status 404, whatever the provisioner is: the handler has
    no health path. *)
Theorem C6_healthz_not_found (W : Type) (p : Provisioner W)
  (header : list (string * list string)) (body : error + json) (w : W) :
  let r := {| Method := "GET"; URL_Path := "/healthz";
              Header := header; Body := body |} in
  serve p r w = (http_NotFound, [], w) /\
  Response_status (fst (fst (serve p r w))) = Some 404.
Proof. split; reflexivity. Qed.

(** C10. A request whose path is not "/sign" is answered 404 without any
    provisioner call, and the program the handler runs is a function of the
    path and the body alone: two requests to "/sign" with the same body are
    served alike whatever their methods and headers. A request to "/sign"
    is never answered by http.NotFound: whatever its method and headers, it
    goes through the signing pipeline, which answers a body that does not
    decode and a request that does not validate with their errors, and
    otherwise mints the token for the derived identity and has the request
    signed. *)
Theorem C10_routing :
  (forall (W : Type) (p : Provisioner W) (r : Request) (w : W),
     URL_Path r <> "/sign" ->
     serve p r w = (http_NotFound, [], w) /\
     Response_status (fst (fst (serve p r w))) = Some 404) /\
  (forall r1 r2 : Request,
     URL_Path r1 = "/sign" -> URL_Path r2 = "/sign" ->
     Body r1 = Body r2 ->
     handler r1 = handler r2 /\
     forall (W : Type) (p : Provisioner W) (w : W),
       serve p r1 w = serve p r2 w) /\
  (forall r1 r2 : Request,
     URL_Path r1 = URL_Path r2 -> Body r1 = Body r2 ->
     handler r1 = handler r2) /\
  (forall r : Request,
     URL_Path r = "/sign" ->
     (forall (W : Type) (p : Provisioner W) (w : W),
        fst (fst (serve p r w)) <> http_NotFound) /\
     (forall perr,
        json_Decode (Body r) SignRequest_zero = inl perr ->
        handler r =
        Ret (render_Error
               (errs_BadRequestErr perr "error reading request body"))) /\
     (forall request err,
        json_Decode (Body r) SignRequest_zero = inr request ->
        Validate request = Some err ->
        handler r = Ret (render_Error err)) /\
     (forall request csr,
        json_Decode (Body r) SignRequest_zero = inr request ->
        Validate request = None ->
        CertificateRequest (CsrPEM request) = Some csr ->
        handler r =
        DoToken (handler_subject csr) (handler_sans csr) (fun res =>
          match res with
          | inl err => Ret (render_Error err)
          | inr token =>
              DoSign (forwarded request token) (fun res =>
                match res with
                | inl err => Ret (render_Error err)
                | inr resp => Ret (render_JSONStatus resp StatusCreated)
                end)
          end))).
Proof.
  assert (Hsame : forall r1 r2 : Request,
             URL_Path r1 = URL_Path r2 -> Body r1 = Body r2 ->
             handler r1 = handler r2).
  { intros r1 r2 Hpath Hbody. unfold handler. now rewrite Hpath, Hbody. }
  split; [| split; [| split]].
  4: { intros r Hpath. split; [| split; [| split]].
       - intros W p w. unfold serve, handler. rewrite (path_test r Hpath).
         destruct (json_Decode (Body r) SignRequest_zero) as [perr | request];
           [discriminate |].
         destruct (Validate request) eqn:V; [discriminate |].
         destruct (validated_has_csr request V) as (csr & -> & _).
         simpl.
         destruct (Token p _ _ w) as [[err | token] w1]; simpl;
           [discriminate |].
         destruct (Sign p _ w1) as [[err | resp] w2]; simpl; discriminate.
       - intros perr Hdec. unfold handler.
         now rewrite (path_test r Hpath), Hdec.
       - intros request err Hdec Hval. unfold handler.
         now rewrite (path_test r Hpath), Hdec, Hval.
       - intros request csr Hdec Hval Hcsr.
         exact (handler_accepted r Hpath Hdec Hval Hcsr). }
  - intros W p r w Hpath. apply String.eqb_neq in Hpath.
    unfold serve, handler. rewrite Hpath. split; reflexivity.
  - intros r1 r2 Hp1 Hp2 Hbody.
    assert (Hprog : handler r1 = handler r2) by (apply Hsame; congruence).
    split; [exact Hprog |].
    intros W p w. unfold serve. now rewrite Hprog.
  - exact Hsame.
Qed.

End Properties.

(** * The properties on the sample instance *)

(** C1 on three requests: one with a common name, one named by its SANs,
    one that names nothing. *)
Lemma C1_derived_subject_witness :
  (Subject_CommonName Sample.client_example <> "" /\
   handler_subject Sample.client_example = "example.com") /\
  (handler_sans Sample.anonymous_example = [] /\
   handler_subject Sample.anonymous_example = "127.0.0.1") /\
  (handler_sans Sample.api_example <> [] /\
   exists pre post,
     handler_sans Sample.api_example = pre ++ "api.example.com" :: post /\
     Forall is_placeholder pre /\
     handler_subject Sample.api_example = "api.example.com") /\
  exists k,
    handler Sample.sign_api =
    DoToken "api.example.com" (handler_sans Sample.api_example) k.
Proof.
  destruct (C1_derived_subject (L := Sample.lib) Sample.client_example) as (Hcn & _).
  destruct (C1_derived_subject (L := Sample.lib) Sample.anonymous_example) as (_ & Hnone & _).
  destruct (C1_derived_subject (L := Sample.lib) Sample.api_example) as (_ & _ & _ & Hcall).
  split; [split; [discriminate | apply Hcn; discriminate] |].
  split; [split; [reflexivity | apply Hnone; reflexivity] |].
  split.
  - split; [discriminate |].
    exists ["localhost"], ["api.example.com"; "ops@example.com"; "127.0.0.1";
                           "10.0.0.7"; "spiffe://example.com/api"].
    repeat split. constructor; [right; reflexivity | constructor].
  - apply (Hcall Sample.sign_api (Sample.decoded Sample.api_example 3600));
      reflexivity.
Defined.

(** C2 on the sample signer. *)
Lemma C2_success_witness :
  Validate (Sample.decoded Sample.api_example 3600) = None /\
  serve Sample.signer Sample.sign_api 0 =
    (render_JSONStatus ["CERT ott:api.example.com"; "CERT intermediate"] 201,
     [CallToken "api.example.com" (handler_sans Sample.api_example);
      CallSign (forwarded (Sample.decoded Sample.api_example 3600)
                  "ott:api.example.com")],
     2).
Proof.
  split; [reflexivity |].
  apply (@C2_success Sample.lib nat Sample.signer Sample.sign_api
           (Sample.decoded Sample.api_example 3600) Sample.api_example
           "ott:api.example.com"
           ["CERT ott:api.example.com"; "CERT intermediate"] 0 1 2);
    reflexivity.
Defined.

(** C3 on the sample signer: the duplicate DNS name is kept. *)
Lemma C3_san_sequence_witness :
  let sans := ["localhost"; "api.example.com"; "api.example.com";
               "ops@example.com"; "127.0.0.1"; "10.0.0.7";
               "spiffe://example.com/api"] in
  handler_sans Sample.api_example = sans /\
  exists subject later,
    snd (fst (serve Sample.signer Sample.sign_api 0)) =
    CallToken subject sans :: later.
Proof.
  destruct (@C3_san_sequence Sample.lib nat Sample.signer Sample.sign_api
              (Sample.decoded Sample.api_example 3600) Sample.api_example 0
              eq_refl eq_refl eq_refl eq_refl)
    as (Hsans & _ & subject & later & Hcalls & _).
  split; [exact Hsans |].
  exists subject, later. exact Hcalls.
Defined.

(** C4 on a body without a csr member and on a forged request. *)
Lemma C4_bad_request_no_calls_witness :
  (exists err,
     is_BadRequest err = true /\ error_status err = 400 /\
     serve Sample.signer Sample.sign_without_csr 0 = (render_Error err, [], 0)) /\
  serve Sample.signer Sample.sign_forged 0 =
    (render_Error
       (errs_BadRequestErr (external None "x509: ECDSA verification failure")
          "invalid csr"),
     [], 0).
Proof.
  destruct (@C4_bad_request_no_calls Sample.lib nat Sample.signer
              Sample.sign_without_csr 0 eq_refl) as [Hmissing _].
  destruct (@C4_bad_request_no_calls Sample.lib nat Sample.signer
              Sample.sign_forged 0 eq_refl) as [_ Hforged].
  split.
  - apply (Hmissing (JObject [("notAfter", JString "1h")])); reflexivity.
  - apply (Hforged (Sample.decoded Sample.forged_example 0)
             Sample.forged_example
             (external None "x509: ECDSA verification failure"));
      reflexivity.
Defined.

(** C4 as written: a body whose only member is named CSR has no member
    named csr, and it is not answered with a BadRequest error: the decoder
    stores it in the csr field, the token is minted and the request is
    signed. *)
Lemma C4_counterexample :
  ~ (URL_Path Sample.sign_client_capitals = "/sign" ->
     forall v : json,
       Body Sample.sign_client_capitals = inr v ->
       member_named "csr" v = false ->
       exists err,
         is_BadRequest err = true /\
         serve Sample.signer Sample.sign_client_capitals 0 =
           (render_Error err, [], 0)).
Proof.
  intros Claim.
  destruct (Claim eq_refl (JObject [("CSR", JString "PEM client")])
              eq_refl eq_refl) as (err & _ & Hserve).
  discriminate Hserve.
Qed.

(** What the handler does with that body. *)
Example capitals_are_signed :
  serve Sample.signer Sample.sign_client_capitals 0 =
    (render_JSONStatus ["CERT ott:example.com"; "CERT intermediate"] 201,
     [CallToken "example.com" [];
      CallSign (forwarded (Sample.decoded Sample.client_example 0)
                  "ott:example.com")],
     2).
Proof. reflexivity. Qed.

(** C5 on the provisioner whose CA refuses to sign. *)
Lemma C5_sign_failure_witness :
  serve Sample.refusing Sample.sign_client 0 =
    (render_Error (external (Some 403) "forbidden"),
     [CallToken "example.com" [];
      CallSign (forwarded (Sample.decoded Sample.client_example 0)
                  "ott:example.com")],
     2) /\
  Response_status (fst (fst (serve Sample.refusing Sample.sign_client 0))) =
    Some 403.
Proof.
  apply (@C5_sign_failure Sample.lib nat Sample.refusing Sample.sign_client
           (Sample.decoded Sample.client_example 0) Sample.client_example
           "ott:example.com" (external (Some 403) "forbidden") 0 1 2);
    reflexivity.
Defined.

(** C7: a request that passes validation and whose derived subject is the
    empty string. *)
Lemma C7_counterexample :
  ~ (Validate (Sample.decoded Sample.nameless_example 0) = None ->
     CertificateRequest (CsrPEM (Sample.decoded Sample.nameless_example 0)) =
       Some Sample.nameless_example ->
     handler_subject Sample.nameless_example <> "").
Proof. intros Claim. now apply Claim. Qed.

(** The handler mints a token for that empty subject. *)
Example nameless_token_call :
  snd (fst (serve Sample.signer Sample.sign_nameless 0)) =
  [CallToken "" [""];
   CallSign (forwarded (Sample.decoded Sample.nameless_example 0) "ott:")].
Proof. reflexivity. Qed.

(** C7 as amended, on a request whose SAN entries are all non-empty. *)
Lemma C7_subject_nonempty_amended_witness :
  Forall (fun s => s <> "") (handler_sans Sample.api_example) /\
  handler_subject Sample.api_example <> "".
Proof.
  assert (Hall : Forall (fun s => s <> "") (handler_sans Sample.api_example)).
  { repeat constructor; discriminate. }
  split; [exact Hall |].
  apply (proj2 (C7_subject_nonempty_amended (L := Sample.lib) Sample.api_example)).
  right. exact Hall.
Defined.

(** C8 on a body that ends too early. *)
Lemma C8_decode_failure_witness :
  serve Sample.signer Sample.sign_truncated 0 =
    (render_Error
       (errs_BadRequestErr (external None "unexpected EOF")
          "error reading request body"),
     [], 0).
Proof.
  apply (@C8_decode_failure Sample.lib nat Sample.signer
           Sample.sign_truncated 0 (external None "unexpected EOF"));
    reflexivity.
Defined.

(** C10 on /healthz and on the client's body sent by POST and by PUT. *)
Lemma C10_routing_witness :
  serve Sample.signer Sample.get_healthz 0 = (http_NotFound, [], 0) /\
  handler Sample.sign_client = handler Sample.sign_client_put /\
  fst (fst (serve Sample.signer Sample.sign_client_put 0)) <> http_NotFound /\
  exists k,
    handler Sample.sign_client_put = DoToken "example.com" [] k.
Proof.
  destruct (C10_routing (L := Sample.lib)) as (Hother & Hsign & _ & Hpipe).
  destruct (Hpipe Sample.sign_client_put eq_refl)
    as (Hfound & _ & _ & Hmint).
  split; [| split; [| split]].
  - apply (Hother nat Sample.signer Sample.get_healthz 0). discriminate.
  - apply (Hsign Sample.sign_client Sample.sign_client_put); reflexivity.
  - apply (Hfound nat Sample.signer 0).
  - eexists.
    apply (Hmint (Sample.decoded Sample.client_example 0)
             Sample.client_example); reflexivity.
Defined.

(** * Further properties of the handler *)

Section HandlerProperties.

Context {L : Library}.

(** X1. Every request is served in one of five ways: a path other than
    /sign gets 404; a body that does not decode or a request that does not
    validate gets a BadRequest error; in both cases the provisioner is not
    called. Otherwise the request is accepted and the token mint is called
    once: its error is rendered, or the sign call follows once with the
    minted token, and its error or, with status 201, its result is
    rendered. *)
Theorem handler_outcomes (W : Type) (p : Provisioner W) (r : Request)
  (w : W) :
  (URL_Path r <> "/sign" /\ serve p r w = (http_NotFound, [], w)) \/
  (URL_Path r = "/sign" /\
   exists err,
     is_BadRequest err = true /\
     serve p r w = (render_Error err, [], w) /\
     ((exists perr,
         json_Decode (Body r) SignRequest_zero = inl perr /\
         err = errs_BadRequestErr perr "error reading request body") \/
      (exists request,
         json_Decode (Body r) SignRequest_zero = inr request /\
         Validate request = Some err))) \/
  (exists request csr,
     accepted r request csr /\
     let subject := handler_subject csr in
     let sans := handler_sans csr in
     (exists err w1,
        Token p subject sans w = (inl err, w1) /\
        serve p r w = (render_Error err, [CallToken subject sans], w1)) \/
     (exists token w1,
        Token p subject sans w = (inr token, w1) /\
        let forward := forwarded request token in
        (exists err w2,
           Sign p forward w1 = (inl err, w2) /\
           serve p r w =
             (render_Error err,
              [CallToken subject sans; CallSign forward], w2)) \/
        (exists resp w2,
           Sign p forward w1 = (inr resp, w2) /\
           serve p r w =
             (render_JSONStatus resp StatusCreated,
              [CallToken subject sans; CallSign forward], w2)))).
Proof.
  destruct (String.eqb_spec (URL_Path r) "/sign") as [Hpath | Hpath].
  2: { left. split; [exact Hpath |].
       apply String.eqb_neq in Hpath.
       unfold serve, handler. now rewrite Hpath. }
  right.
  destruct (json_Decode (Body r) SignRequest_zero) as [perr | request] eqn:D.
  { left. split; [exact Hpath |].
    exists (errs_BadRequestErr perr "error reading request body").
    split; [reflexivity |]. split.
    - unfold serve, handler. now rewrite (path_test r Hpath), D.
    - left. now exists perr. }
  destruct (Validate request) as [verr |] eqn:V.
  { left. split; [exact Hpath |].
    exists verr. split; [| split].
    - unfold Validate in V.
      destruct (CertificateRequest (CsrPEM request)) as [csr |].
      + destruct (x509_CheckSignature csr); [| discriminate].
        now injection V as <-.
      + now injection V as <-.
    - unfold serve, handler. now rewrite (path_test r Hpath), D, V.
    - right. now exists request. }
  right.
  destruct (validated_has_csr request V) as (csr & Hcsr & Hsig).
  exists request, csr. split; [now repeat split |].
  cbv zeta. unfold serve.
  rewrite (handler_accepted r Hpath D V Hcsr). simpl.
  destruct (Token p (handler_subject csr) (handler_sans csr) w)
    as [[err | token] w1] eqn:T; simpl.
  { left. now exists err, w1. }
  right. exists token, w1. split; [reflexivity |].
  destruct (Sign p (forwarded request token) w1) as [[err | resp] w2] eqn:S;
    simpl.
  - left. now exists err, w2.
  - right. now exists resp, w2.
Qed.

Lemma accepted_validates (r : Request) (request : SignRequest)
  (csr : x509_CertificateRequest IP URL) :
  accepted r request csr -> Validate request = None.
Proof.
  intros (_ & _ & Hcsr & Hsig). unfold Validate. now rewrite Hcsr, Hsig.
Qed.

(** X2. When the token mint fails for an accepted request, the handler
    renders the error of the mint as it received it and stops: the mint is
    its only call, and nothing is sent to be signed. *)
Theorem token_failure_stops (W : Type) (p : Provisioner W) (r : Request)
  (request : SignRequest) (csr : x509_CertificateRequest IP URL)
  (err : error) (w w1 : W) :
  accepted r request csr ->
  Token p (handler_subject csr) (handler_sans csr) w = (inl err, w1) ->
  serve p r w =
    (render_Error err,
     [CallToken (handler_subject csr) (handler_sans csr)], w1) /\
  Response_status (fst (fst (serve p r w))) = Some (error_status err).
Proof.
  intros Hacc Htoken.
  pose proof (accepted_validates Hacc) as Hval.
  destruct Hacc as (Hpath & Hdec & Hcsr & _).
  assert (Hserve :
    serve p r w =
      (render_Error err,
       [CallToken (handler_subject csr) (handler_sans csr)], w1)).
  { unfold serve. rewrite (handler_accepted r Hpath Hdec Hval Hcsr).
    simpl. now rewrite Htoken. }
  split; [exact Hserve | now rewrite Hserve].
Qed.

(** X3. Whatever the handler sends to the provisioner comes from a request
    whose CSR passed the signature check: a token mint is for the subject
    and SAN list derived from that CSR, and a sign call forwards that very
    request with the token the mint returned. *)
Theorem calls_only_for_verified (W : Type) (p : Provisioner W) (r : Request)
  (w : W) (call : Call) :
  In call (snd (fst (serve p r w))) ->
  exists request csr,
    accepted r request csr /\
    (call = CallToken (handler_subject csr) (handler_sans csr) \/
     exists token w1,
       Token p (handler_subject csr) (handler_sans csr) w = (inr token, w1) /\
       call = CallSign (forwarded request token)).
Proof.
  unfold serve, handler.
  destruct (String.eqb_spec (URL_Path r) "/sign") as [Hpath | Hpath]; simpl;
    [| contradiction].
  destruct (json_Decode (Body r) SignRequest_zero) as [perr | request] eqn:D;
    simpl; [contradiction |].
  destruct (Validate request) as [verr |] eqn:V; simpl; [contradiction |].
  destruct (validated_has_csr request V) as (csr & Hcsr & Hsig).
  rewrite Hcsr. simpl. intros Hin.
  exists request, csr. split; [now repeat split |].
  destruct (Token p (handler_subject csr) (handler_sans csr) w)
    as [[err | token] w1]; simpl in Hin.
  - destruct Hin as [<- | []]. now left.
  - destruct (Sign p (forwarded request token) w1) as [[err | resp] w2];
      simpl in Hin;
      (destruct Hin as [<- | [<- | []]]; [now left | right; eauto]).
Qed.




Lemma decodeMembers_known (ms : list (string * json)) :
  forall req, decodeMembers (known_members ms) req = decodeMembers ms req.
Proof.
  induction ms as [| [key v] rest IH]; intros req; simpl; [reflexivity |].
  destruct (lookupField key) as [f |] eqn:K; simpl.
  - rewrite K. destruct f.
    + destruct (CertificateRequest_UnmarshalJSON v); [reflexivity | apply IH].
    + destruct (TimeDuration_UnmarshalJSON v); [reflexivity | apply IH].
  - apply IH.
Qed.

(** X5. The decoder is not told to refuse unknown fields: the members of the
    body whose names select neither csr nor notAfter do not change what the
    handler does. *)
Theorem unknown_members_ignored (method path : string)
  (header : list (string * list string)) (ms : list (string * json)) :
  handler {| Method := method; URL_Path := path; Header := header;
             Body := inr (JObject ms) |} =
  handler {| Method := method; URL_Path := path; Header := header;
             Body := inr (JObject (known_members ms)) |}.
Proof.
  unfold handler. simpl. now rewrite decodeMembers_known.
Qed.

(** X6. generateSubject picks its answer from the list it is given, when
    the list is not empty, and it answers with "127.0.0.1" or "localhost"
    only when the list offers nothing else. *)
Theorem generateSubject_choice (sans : list string) :
  (sans <> [] -> In (generateSubject sans) sans) /\
  (is_placeholder (generateSubject sans) -> Forall is_placeholder sans).
Proof.
  destruct sans as [| first rest]; [split; [congruence | constructor] |].
  unfold generateSubject.
  destruct (generateSubject_loop (first :: rest)) as [s |] eqn:Loop.
  - apply generateSubject_loop_Some in Loop.
    destruct Loop as (pre & post & Hsplit & _ & Hs).
    split; [| contradiction].
    intros _. rewrite Hsplit. apply in_elt.
  - apply generateSubject_loop_None in Loop.
    split; [intros _; now left | intros _; exact Loop].
Qed.

End HandlerProperties.

(** * The password file *)

Section TrimProperties.

Context {U : UTF8}.

Lemma firstn_snoc_nth (A : Type) (d : A) (s : list A) :
  forall j, j < length s -> firstn (j + 1) s = firstn j s ++ [nth j s d].
Proof.
  induction s as [| x s IH]; intros j Hj; simpl in Hj; [lia |].
  destruct j as [| j]; simpl; [reflexivity |].
  rewrite IH by lia. reflexivity.
Qed.

Lemma ascii_at (s : list Byte.byte) (k : nat) :
  is_ASCII s -> (RuneSelf <=? Byte.to_N (nth k s Byte.x00))%N = false.
Proof.
  intros Hs. apply N.leb_gt.
  destruct (Nat.lt_ge_cases k (length s)) as [Hk | Hk].
  - unfold is_ASCII in Hs. rewrite Forall_nth in Hs. now apply Hs.
  - rewrite nth_overflow by exact Hk. reflexivity.
Qed.

(** On ASCII bytes the loop steps back one byte at a time and stops at the
    last byte below [i] that is not a space. *)
Lemma lastIndexFunc_loop_ascii (s : list Byte.byte) :
  is_ASCII s ->
  forall i fuel, i <= fuel ->
    match lastIndexFunc_loop fuel s IsSpace false i with
    | Some j =>
        j < i /\ IsSpace (Byte.to_N (nth j s Byte.x00)) = false /\
        forall k, j < k < i -> IsSpace (Byte.to_N (nth k s Byte.x00)) = true
    | None =>
        forall k, k < i -> IsSpace (Byte.to_N (nth k s Byte.x00)) = true
    end.
Proof.
  intros Hs.
  induction i as [| i IH]; intros fuel Hfuel.
  - destruct fuel; simpl; intros k Hk; lia.
  - destruct fuel as [| fuel]; [lia |].
    cbn [lastIndexFunc_loop Nat.eqb].
    replace (S i - 1) with i by lia.
    rewrite (ascii_at i Hs).
    replace (S i - 1) with i by lia.
    destruct (IsSpace (Byte.to_N (nth i s Byte.x00))) eqn:Sp; cbn [Bool.eqb].
    + specialize (IH fuel ltac:(lia)).
      destruct (lastIndexFunc_loop fuel s IsSpace false i) as [j |].
      * destruct IH as (Hj & Hnot & Hbetween).
        split; [lia |]. split; [exact Hnot |].
        intros k Hk. destruct (Nat.eq_dec k i) as [-> | Hne];
          [exact Sp | apply Hbetween; lia].
      * intros k Hk. destruct (Nat.eq_dec k i) as [-> | Hne];
          [exact Sp | apply IH; lia].
    + split; [lia |]. split; [exact Sp |]. intros k Hk. lia.
Qed.

(** What TrimRightFunc keeps of ASCII bytes: all of them up to the last one
    that is not a space. *)
Lemma TrimRightFunc_ascii (s : list Byte.byte) :
  is_ASCII s ->
  exists trailing,
    s = TrimRightFunc s IsSpace ++ trailing /\
    Forall space_byte trailing /\
    (TrimRightFunc s IsSpace = [] \/
     exists init last,
       TrimRightFunc s IsSpace = init ++ [last] /\
       IsSpace (Byte.to_N last) = false).
Proof.
  intros Hs. unfold TrimRightFunc, lastIndexFunc.
  pose proof (lastIndexFunc_loop_ascii Hs (Nat.le_refl (length s))) as Hloop.
  destruct (lastIndexFunc_loop (length s) s IsSpace false (length s))
    as [j |].
  - destruct Hloop as (Hj & Hnot & Hbetween).
    rewrite (ascii_at j Hs).
    exists (skipn (j + 1) s).
    split; [now rewrite firstn_skipn |]. split.
    + apply Forall_nth. intros k d Hk.
      rewrite length_skipn in Hk.
      rewrite nth_skipn, (nth_indep _ d Byte.x00) by lia.
      apply Hbetween. lia.
    + right. exists (firstn j s), (nth j s Byte.x00).
      split; [now apply firstn_snoc_nth | exact Hnot].
  - exists s. simpl. split; [reflexivity |]. split; [| now left].
    apply Forall_nth. intros k d Hk.
    rewrite (nth_indep _ d Byte.x00) by exact Hk. now apply Hloop.
Qed.

Lemma TrimRightFunc_ascii_split (s : list Byte.byte) :
  is_ASCII s ->
  exists password trailing,
    TrimRightFunc s IsSpace = password /\
    s = password ++ trailing /\
    Forall space_byte trailing /\
    (password = [] \/
     exists init last,
       password = init ++ [last] /\ IsSpace (Byte.to_N last) = false).
Proof.
  intros Hs.
  destruct (TrimRightFunc_ascii Hs) as (trailing & Hsplit & Hsp & Hlast).
  exists (TrimRightFunc s IsSpace), trailing. auto.
Qed.

(** X7. A password file of ASCII bytes is read as its content without the
    spaces, tabs and line ends that close it: what is cut off is only such
    bytes, and the password is empty or ends in a byte that is not one.
    Nothing is cut at the front or inside. *)
Theorem readPasswordFromFile_trims_ascii
  (ReadFile : string -> error + list Byte.byte) (filename : string)
  (content : list Byte.byte) :
  ReadFile filename = inr content ->
  is_ASCII content ->
  exists password trailing,
    readPasswordFromFile ReadFile filename = inr password /\
    content = password ++ trailing /\
    Forall space_byte trailing /\
    (password = [] \/
     exists init last,
       password = init ++ [last] /\ IsSpace (Byte.to_N last) = false).
Proof.
  intros Hread Hascii.
  destruct (TrimRightFunc_ascii Hascii) as (trailing & Hsplit & Hsp & Hlast).
  exists (TrimRightFunc content IsSpace), trailing.
  unfold readPasswordFromFile. rewrite Hread. auto.
Qed.

Lemma snoc_eq_inv (A : Type) (l1 l2 : list A) (a b : A) :
  l1 ++ [a] = l2 ++ [b] -> l1 = l2 /\ a = b.
Proof. apply app_inj_tail_iff. Qed.

(** X8. The edges of the trimming, on ASCII content: a file that holds
    nothing but spaces and line ends, or nothing at all, gives the empty
    password and no error; a file that ends in a byte that is not a space
    gives its whole content; and a file that cannot be read gives the error
    of the read. *)
Theorem readPasswordFromFile_edges
  (ReadFile : string -> error + list Byte.byte) (filename : string) :
  (forall content,
     ReadFile filename = inr content -> is_ASCII content ->
     Forall space_byte content ->
     readPasswordFromFile ReadFile filename = inr []) /\
  (forall init last,
     ReadFile filename = inr (init ++ [last]) ->
     is_ASCII (init ++ [last]) ->
     IsSpace (Byte.to_N last) = false ->
     readPasswordFromFile ReadFile filename = inr (init ++ [last])) /\
  (forall err,
     ReadFile filename = inl err ->
     readPasswordFromFile ReadFile filename = inl err).
Proof.
  unfold readPasswordFromFile.
  split; [| split].
  - intros content Hread Hascii Hall. rewrite Hread. f_equal.
    destruct (TrimRightFunc_ascii_split Hascii)
      as (password & trailing & -> & Hsplit & _ & Hlast).
    destruct Hlast as [-> | (init & last & -> & Hnot)]; [reflexivity |].
    rewrite Hsplit in Hall.
    apply Forall_app in Hall as [Hpw _]. apply Forall_app in Hpw as [_ Hl].
    inversion Hl; subst. unfold space_byte in *. congruence.
  - intros init last Hread Hascii Hnot. rewrite Hread. f_equal.
    destruct (TrimRightFunc_ascii_split Hascii)
      as (password & trailing & -> & Hsplit & Hsp & _).
    destruct trailing as [| t trailing _] using rev_ind.
    + now rewrite app_nil_r in Hsplit.
    + rewrite app_assoc in Hsplit. apply snoc_eq_inv in Hsplit as [_ ->].
      apply Forall_app in Hsp as [_ Ht]. inversion Ht; subst.
      unfold space_byte in *. congruence.
  - intros err Hread. now rewrite Hread.
Qed.

End TrimProperties.

(** * Configuration and startup *)

(** X9. A getter of Config returns the configured value whenever one is
    set, and its built-in default otherwise; in no case the empty string. *)
Theorem Config_getters (c : Config) :
  (GetAddress c <> "" /\ GetServiceName c <> "" /\
   GetRootCAPath c <> "" /\ GetProvisionerPasswordPath c <> "") /\
  (Address c <> "" -> GetAddress c = Address c) /\
  (Service c <> "" -> GetServiceName c = Service c) /\
  (RootCAPath c <> "" -> GetRootCAPath c = RootCAPath c) /\
  (ProvisionerPasswordFile c <> "" ->
   GetProvisionerPasswordPath c = ProvisionerPasswordFile c) /\
  (Address c = "" -> GetAddress c = ":4443") /\
  (Service c = "" -> GetServiceName c = "ca-signer.step.svc.cluster.local") /\
  (RootCAPath c = "" -> GetRootCAPath c = "/home/step/certs/root_ca.crt") /\
  (ProvisionerPasswordFile c = "" ->
   GetProvisionerPasswordPath c = "/home/step/password/password").
Proof.
  unfold GetAddress, GetServiceName, GetRootCAPath,
    GetProvisionerPasswordPath.
  destruct (String.eqb_spec (Address c) "");
    destruct (String.eqb_spec (Service c) "");
    destruct (String.eqb_spec (RootCAPath c) "");
    destruct (String.eqb_spec (ProvisionerPasswordFile c) "");
    simpl; repeat split; intros; try congruence; try discriminate.
Qed.

Section StartupProperties.

Context {L : Library} {U : UTF8}.

Variable W : Type.

(** Runs main along the equations at hand. *)
Ltac main_runs :=
  repeat first
    [ progress cbv beta iota zeta delta
        [main boot_bind boot_ret boot_stop or_panic or_exit panic_if perform]
    | match goal with
      | H : ?x = _ |- context [?x] => rewrite H
      end ];
  reflexivity.

(** The same, on a goal about the effects of main. *)
Ltac main_effects :=
  repeat first
    [ progress cbv beta iota zeta delta
        [main boot_bind boot_ret boot_stop or_panic or_exit panic_if perform]
    | match goal with
      | H : ?x = _ |- context [?x] => rewrite H
      end ];
  cbn [fst snd app In].

(** X10. How main runs, in full. Without a first argument it panics on the
    index; a configuration that does not load, or a password file that
    cannot be read, makes it panic with that error; in these cases nothing
    has reached the CA. After that it creates the provisioner and mints the
    bootstrap token, and leaves with status 1 when either fails; it calls
    BootstrapServer and then ListenAndServeTLS, and panics with the error
    either returns. Otherwise it serves, on the configured address, the
    handler run against the provisioner it created. *)
Theorem main_outcomes (h : Host W) (w : W) :
  (nth_error (os_Args h) 1 = None /\
   main h w = (inl panic_index_out_of_range, [], w)) \/
  (exists file err,
     nth_error (os_Args h) 1 = Some file /\
     loadConfig (os_ReadFile h) (yaml_Unmarshal h) file = inl err /\
     main h w = (inl (panic err), [], w)) \/
  (exists file config err,
     nth_error (os_Args h) 1 = Some file /\
     loadConfig (os_ReadFile h) (yaml_Unmarshal h) file = inr config /\
     readPasswordFromFile (os_ReadFile h)
       (GetProvisionerPasswordPath config) = inl err /\
     main h w = (inl (panic err), [], w)) \/
  (exists file config password,
     configured h file config password /\
     let created := NewProvisioner_effect h config password in
     (exists err w1,
        call_NewProvisioner h config password w = (inl err, w1) /\
        main h w = (inl (os_Exit 1), [created], w1)) \/
     (exists p w1,
        call_NewProvisioner h config password w = (inr p, w1) /\
        let service := GetServiceName config in
        let minted := eff_Token service (bootstrap_sans config) in
        (exists err w2,
           Token p service (bootstrap_sans config) w1 = (inl err, w2) /\
           main h w = (inl (os_Exit 1), [created; minted], w2)) \/
        (exists token w2,
           Token p service (bootstrap_sans config) w1 = (inr token, w2) /\
           let srv := server_of config p in
           let booted := eff_BootstrapServer token (GetAddress config) in
           (exists err w3,
              ca_BootstrapServer h token srv w2 = (Some err, w3) /\
              main h w =
                (inl (panic err), [created; minted; booted], w3)) \/
           (exists w3,
              ca_BootstrapServer h token srv w2 = (None, w3) /\
              let listening := eff_ListenAndServeTLS (GetAddress config) in
              (exists err w4,
                 ListenAndServeTLS h srv w3 = (Some err, w4) /\
                 main h w =
                   (inl (panic err),
                    [created; minted; booted; listening], w4)) \/
              (exists w4,
                 ListenAndServeTLS h srv w3 = (None, w4) /\
                 main h w =
                   (inr srv,
                    [created; minted; booted; listening], w4)))))).
Proof.
  unfold call_NewProvisioner, NewProvisioner_effect, bootstrap_sans,
    server_of.
  destruct (nth_error (os_Args h) 1) as [file |] eqn:Hargs;
    [| left; split; first [assumption | reflexivity | main_runs] ].
  right.
  destruct (loadConfig (os_ReadFile h) (yaml_Unmarshal h) file)
    as [err | config] eqn:Hload.
  { left. exists file, err. repeat split; first [assumption | main_runs]. }
  right.
  destruct (readPasswordFromFile (os_ReadFile h)
              (GetProvisionerPasswordPath config))
    as [err | password] eqn:Hpass.
  { left. exists file, config, err.
    repeat split; first [assumption | main_runs]. }
  right. exists file, config, password.
  split; [repeat split; assumption |].
  cbv zeta.
  destruct (ca_NewProvisioner h (os_Getenv h "PROVISIONER_NAME")
              (os_Getenv h "PROVISIONER_KID") (CaURL config) password
              (GetRootCAPath config) w) as [[err | p] w1] eqn:Hnew.
  { left. exists err, w1. split; first [assumption | reflexivity | main_runs]. }
  right. exists p, w1. split; [reflexivity |].
  destruct (Token p (GetServiceName config)
              [GetServiceName config; "127.0.0.1"] w1)
    as [[err | token] w2] eqn:Hmint.
  { left. exists err, w2. split; first [assumption | reflexivity | main_runs]. }
  right. exists token, w2. split; [reflexivity |].
  destruct (ca_BootstrapServer h token
              {| Addr := GetAddress config;
                 ReadHeaderTimeout_seconds := 15;
                 Handler := serve p |} w2) as [[err |] w3] eqn:Hboot.
  { left. exists err, w3. split; first [assumption | reflexivity | main_runs]. }
  right. exists w3. split; [reflexivity |].
  destruct (ListenAndServeTLS h
              {| Addr := GetAddress config;
                 ReadHeaderTimeout_seconds := 15;
                 Handler := serve p |} w3) as [[err |] w4] eqn:Hlisten.
  - left. exists err, w4. split; first [assumption | reflexivity | main_runs].
  - right. exists w4. split; first [assumption | reflexivity | main_runs].
Qed.

(** X11. main asks the CA for a serving certificate only with a token that
    the provisioner it created has minted for the service name, with the
    service name and "127.0.0.1" as SANs, and only for the configured
    address; and it listens only after BootstrapServer returned without an
    error. *)
Theorem main_serves_only_bootstrapped (h : Host W) (w : W) :
  (forall token addr,
     In (eff_BootstrapServer token addr) (snd (fst (main h w))) ->
     exists file config password p w1 w2,
       configured h file config password /\
       call_NewProvisioner h config password w = (inr p, w1) /\
       Token p (GetServiceName config) (bootstrap_sans config) w1 =
         (inr token, w2) /\
       addr = GetAddress config) /\
  (forall addr,
     In (eff_ListenAndServeTLS addr) (snd (fst (main h w))) ->
     exists file config password p w1 token w2 w3,
       configured h file config password /\
       call_NewProvisioner h config password w = (inr p, w1) /\
       Token p (GetServiceName config) (bootstrap_sans config) w1 =
         (inr token, w2) /\
       ca_BootstrapServer h token (server_of config p) w2 = (None, w3) /\
       addr = GetAddress config).
Proof.
  assert (Hkey : forall eff,
    In eff (snd (fst (main h w))) ->
    match eff with
    | eff_BootstrapServer token addr =>
        exists file config password p w1 w2,
          configured h file config password /\
          call_NewProvisioner h config password w = (inr p, w1) /\
          Token p (GetServiceName config) (bootstrap_sans config) w1 =
            (inr token, w2) /\
          addr = GetAddress config
    | eff_ListenAndServeTLS addr =>
        exists file config password p w1 token w2 w3,
          configured h file config password /\
          call_NewProvisioner h config password w = (inr p, w1) /\
          Token p (GetServiceName config) (bootstrap_sans config) w1 =
            (inr token, w2) /\
          ca_BootstrapServer h token (server_of config p) w2 = (None, w3) /\
          addr = GetAddress config
    | _ => True
    end).
  { intros eff.
    destruct (nth_error (os_Args h) 1) as [file |] eqn:Hargs;
      [| main_effects; contradiction].
    destruct (loadConfig (os_ReadFile h) (yaml_Unmarshal h) file)
      as [err | config] eqn:Hload; [main_effects; contradiction |].
    destruct (readPasswordFromFile (os_ReadFile h)
                (GetProvisionerPasswordPath config))
      as [err | password] eqn:Hpass; [main_effects; contradiction |].
    assert (Hconf : configured h file config password)
      by (repeat split; assumption).
    destruct (ca_NewProvisioner h (os_Getenv h "PROVISIONER_NAME")
                (os_Getenv h "PROVISIONER_KID") (CaURL config) password
                (GetRootCAPath config) w) as [[err | p] w1] eqn:Hnew.
    { main_effects. intros [<- | []]. exact I. }
    destruct (Token p (GetServiceName config)
                [GetServiceName config; "127.0.0.1"] w1)
      as [[err | token] w2] eqn:Hmint.
    { main_effects. intros [<- | [<- | []]]; exact I. }
    destruct (ca_BootstrapServer h token
                {| Addr := GetAddress config;
                   ReadHeaderTimeout_seconds := 15;
                   Handler := serve p |} w2) as [[err |] w3] eqn:Hboot.
    { main_effects. intros [<- | [<- | [<- | []]]]; try exact I.
      exists file, config, password, p, w1, w2. auto. }
    destruct (ListenAndServeTLS h
                {| Addr := GetAddress config;
                   ReadHeaderTimeout_seconds := 15;
                   Handler := serve p |} w3) as [[err |] w4] eqn:Hlisten;
      main_effects;
      (intros [<- | [<- | [<- | [<- | []]]]]; try exact I;
       [ exists file, config, password, p, w1, w2; auto
       | exists file, config, password, p, w1, token, w2, w3; auto ]). }
  split.
  - intros token addr Hin. exact (Hkey _ Hin).
  - intros addr Hin. exact (Hkey _ Hin).
Qed.

End StartupProperties.

(** * The example client *)

Section ClientProperties.

Context {L : Library}.

Variables (W : Type) (Certificate : Type).

(** X12. sign returns a response only when it called client.Post, for
    https://127.0.0.1:4443/sign as application/json, with the marshaled
    request as body, the key pair of client.crt and client.key and the
    roots of root.crt, and the response that call returned had the status
    201 and a body that decodes to the response of sign. What the call puts
    on the wire, redirects included, is inside client.Post and is not
    stated. *)
Theorem sign_succeeds_only_on_Created (h : ClientHost W Certificate)
  (req : SignRequest) (w w1 : W) (signResp : SignResponse)
  (sent : list (Posted Certificate)) :
  sign h req w = (inr signResp, sent, w1) ->
  exists body clientCert caCert resp,
    json_Marshal h req = inr body /\
    tls_LoadX509KeyPair h "client.crt" "client.key" = inr clientCert /\
    client_ReadFile h "root.crt" = inr caCert /\
    let config := {| Certificates := [clientCert]; RootCAs := [caCert] |} in
    let url := "https://127.0.0.1:4443/sign" in
    client_Post h config url "application/json" body w = (inr resp, w1) /\
    sent = [posted config url "application/json" body] /\
    StatusCode resp = 201 /\
    json_Decode_SignResponse h (resp_Body resp) = inr signResp.
Proof.
  unfold sign.
  destruct (json_Marshal h req) as [err | body]; [discriminate |].
  destruct (tls_LoadX509KeyPair h "client.crt" "client.key")
    as [err | clientCert]; [discriminate |].
  destruct (client_ReadFile h "root.crt") as [err | caCert]; [discriminate |].
  destruct (client_Post h _ _ _ body w) as [[err | resp] w2] eqn:P;
    [discriminate |].
  destruct (Nat.eqb_spec (StatusCode resp) StatusCreated) as [St | St];
    simpl; [| discriminate].
  destruct (json_Decode_SignResponse h (resp_Body resp)) as [err | decoded]
    eqn:D; [discriminate |].
  intros E. injection E as <- <- <-.
  exists body, clientCert, caCert, resp. cbv zeta. repeat split; auto.
Qed.

(** X13. An answer with any status other than 201, another 2xx included, is
    an error for sign: it reports "unexpected status code: " followed by the
    status in decimal, whatever the body of the answer holds. *)
Theorem sign_rejects_other_status (h : ClientHost W Certificate)
  (req : SignRequest) (w w1 : W) (body : list Byte.byte)
  (clientCert : Certificate) (caCert : list Byte.byte)
  (resp : http_Response) :
  json_Marshal h req = inr body ->
  tls_LoadX509KeyPair h "client.crt" "client.key" = inr clientCert ->
  client_ReadFile h "root.crt" = inr caCert ->
  let config := {| Certificates := [clientCert]; RootCAs := [caCert] |} in
  let url := "https://127.0.0.1:4443/sign" in
  client_Post h config url "application/json" body w = (inr resp, w1) ->
  StatusCode resp <> 201 ->
  sign h req w =
    (inl (errors_Errorf
            ("unexpected status code: " ++ fmt_d (StatusCode resp))),
     [posted config url "application/json" body], w1).
Proof.
  intros Hm Hk Hr config url Hp Hst.
  unfold sign. rewrite Hm, Hk, Hr. fold config. fold url. rewrite Hp.
  apply Nat.eqb_neq in Hst. unfold StatusCreated. now rewrite Hst.
Qed.

(** X14. sign leaves client.Post uncalled exactly when the request cannot
    be marshaled, the key pair cannot be loaded or root.crt cannot be read;
    the error then wraps the cause under the message of that step, and the
    network is left as it was. *)
Theorem sign_sends_nothing_on_local_failure (h : ClientHost W Certificate)
  (req : SignRequest) (w : W) :
  (snd (fst (sign h req w)) = [] <->
   (exists err, json_Marshal h req = inl err) \/
   (exists err, tls_LoadX509KeyPair h "client.crt" "client.key" = inl err) \/
   (exists err, client_ReadFile h "root.crt" = inl err)) /\
  (snd (fst (sign h req w)) = [] ->
   snd (sign h req w) = w /\
   exists err msg,
     fst (fst (sign h req w)) = inl (errors_Wrap err msg) /\
     ((json_Marshal h req = inl err /\ msg = "error marshaling request") \/
      (tls_LoadX509KeyPair h "client.crt" "client.key" = inl err /\
       msg = "error loading client certificate") \/
      (client_ReadFile h "root.crt" = inl err /\
       msg = "error reading CA certificate"))).
Proof.
  unfold sign.
  destruct (json_Marshal h req) as [merr | body].
  { simpl. repeat split; eauto 8. }
  destruct (tls_LoadX509KeyPair h "client.crt" "client.key")
    as [kerr | clientCert].
  { simpl. repeat split; eauto 8. }
  destruct (client_ReadFile h "root.crt") as [rerr | caCert].
  { simpl. repeat split; eauto 10. }
  destruct (client_Post h _ _ _ body w) as [[perr | resp] w1].
  2: destruct (negb (Nat.eqb (StatusCode resp) StatusCreated)).
  3: destruct (json_Decode_SignResponse h (resp_Body resp)).
  all: simpl; split;
    [split; [discriminate | intros [[? D] | [[? D] | [? D]]]; discriminate D]
    | discriminate].
Qed.

End ClientProperties.

(** * The further properties on the sample hosts *)

(** X2 on a provisioner that cannot mint. *)
Lemma token_failure_stops_witness :
  accepted Sample.sign_client (Sample.decoded Sample.client_example 0)
    Sample.client_example /\
  serve SampleHost.tokenless Sample.sign_client 0 =
    (render_Error (external (Some 500) "error generating token"),
     [CallToken "example.com" []], 1).
Proof.
  assert (Hacc : accepted Sample.sign_client
                   (Sample.decoded Sample.client_example 0)
                   Sample.client_example) by (repeat split).
  split; [exact Hacc |].
  apply (@token_failure_stops Sample.lib nat SampleHost.tokenless
           Sample.sign_client (Sample.decoded Sample.client_example 0)
           Sample.client_example
           (external (Some 500) "error generating token") 0 1 Hacc).
  reflexivity.
Defined.

(** X3 on the token mint of the sample signer. *)
Lemma calls_only_for_verified_witness :
  exists request csr,
    accepted Sample.sign_api request csr /\
    (CallToken "api.example.com" (handler_sans Sample.api_example) =
     CallToken (handler_subject csr) (handler_sans csr) \/
     exists token w1,
       Token Sample.signer (handler_subject csr) (handler_sans csr) 0 =
         (inr token, w1) /\
       CallToken "api.example.com" (handler_sans Sample.api_example) =
       CallSign (forwarded request token)).
Proof.
  apply (@calls_only_for_verified Sample.lib nat Sample.signer
           Sample.sign_api 0).
  left. reflexivity.
Defined.


(** X6 on a list with a name to offer and on one without. *)
Lemma generateSubject_choice_witness :
  In (generateSubject ["localhost"; "api.example.com"])
    ["localhost"; "api.example.com"] /\
  Forall is_placeholder ["localhost"; "127.0.0.1"].
Proof.
  split.
  - apply (proj1 (generateSubject_choice ["localhost"; "api.example.com"])).
    discriminate.
  - apply (proj2 (generateSubject_choice ["localhost"; "127.0.0.1"])).
    right. reflexivity.
Defined.

Lemma sample_password_ascii :
  is_ASCII (SampleHost.bytes SampleHost.password_text).
Proof. repeat (constructor; [reflexivity |]). constructor. Qed.

(** X7 on the sample password file, which ends in a space, a tab and a line
    feed. *)
Lemma readPasswordFromFile_trims_ascii_witness :
  exists password trailing,
    readPasswordFromFile SampleHost.ReadFile "/home/step/password/password" =
      inr password /\
    SampleHost.bytes SampleHost.password_text = password ++ trailing /\
    Forall space_byte trailing /\
    (password = [] \/
     exists init last,
       password = init ++ [last] /\ IsSpace (Byte.to_N last) = false).
Proof.
  apply (@readPasswordFromFile_trims_ascii SampleHost.invalid_above_ascii
           SampleHost.ReadFile "/home/step/password/password"
           (SampleHost.bytes SampleHost.password_text)).
  - reflexivity.
  - exact sample_password_ascii.
Defined.

Example sample_password :
  readPasswordFromFile SampleHost.ReadFile "/home/step/password/password" =
  inr (SampleHost.bytes "s3cret").
Proof. reflexivity. Qed.

(** X8 on a blank file, on a file without a final line feed and on a file
    that does not exist. *)
Lemma readPasswordFromFile_edges_witness :
  readPasswordFromFile SampleHost.ReadFile "/home/step/blank" = inr [] /\
  readPasswordFromFile SampleHost.ReadFile "root.crt" =
    inr (SampleHost.bytes "PEM roo" ++ [Byte.x74]) /\
  readPasswordFromFile SampleHost.ReadFile "/nowhere" =
    inl SampleHost.no_such_file.
Proof.
  split; [| split].
  - apply (proj1 (@readPasswordFromFile_edges SampleHost.invalid_above_ascii
                    SampleHost.ReadFile "/home/step/blank")
             (SampleHost.bytes (" " ++ SampleHost.line_feed))).
    + reflexivity.
    + repeat (constructor; [reflexivity |]). constructor.
    + repeat (constructor; [reflexivity |]). constructor.
  - apply (proj1 (proj2 (@readPasswordFromFile_edges
                           SampleHost.invalid_above_ascii
                           SampleHost.ReadFile "root.crt"))).
    + reflexivity.
    + repeat (constructor; [reflexivity |]). constructor.
    + reflexivity.
  - apply (proj2 (proj2 (@readPasswordFromFile_edges
                           SampleHost.invalid_above_ascii
                           SampleHost.ReadFile "/nowhere"))).
    reflexivity.
Defined.

(** X9 on the sample configuration, which sets the address and leaves the
    service name open. *)
Lemma Config_getters_witness :
  GetAddress SampleHost.the_config = ":8443" /\
  GetServiceName SampleHost.the_config = "ca-signer.step.svc.cluster.local".
Proof.
  destruct (Config_getters SampleHost.the_config)
    as (_ & Haddr & _ & _ & _ & _ & Hservice & _).
  split.
  - rewrite Haddr by discriminate. reflexivity.
  - apply Hservice. reflexivity.
Defined.

(** X11 on the command line of the Dockerfile. *)
Lemma main_serves_only_bootstrapped_witness :
  exists file config password p w1 w2,
    configured SampleHost.docker file config password /\
    call_NewProvisioner SampleHost.docker config password 0 = (inr p, w1) /\
    Token p (GetServiceName config) (bootstrap_sans config) w1 =
      (inr "ott:ca-signer.step.svc.cluster.local", w2) /\
    ":8443" = GetAddress config.
Proof.
  apply (proj1 (@main_serves_only_bootstrapped Sample.lib
                  SampleHost.invalid_above_ascii nat SampleHost.docker 0)).
  right. right. left. reflexivity.
Defined.

(** X12 on a network that answers 201. *)
Lemma sign_succeeds_only_on_Created_witness :
  exists resp : http_Response,
    StatusCode resp = 201 /\
    json_Decode_SignResponse (SampleHost.client 201 "CERT") (resp_Body resp) =
      inr ["CERT"].
Proof.
  destruct (@sign_succeeds_only_on_Created Sample.lib nat string
              (SampleHost.client 201 "CERT")
              (Sample.decoded Sample.client_example 0) 0 1 ["CERT"] _
              eq_refl)
    as (body & clientCert & caCert & resp & _ & _ & _ & Hrest).
  cbv zeta in Hrest. destruct Hrest as (_ & _ & Hstatus & Hdecode).
  exists resp. split; assumption.
Defined.

(** X13 on a network that answers 200. *)
Lemma sign_rejects_other_status_witness :
  fst (fst (sign (SampleHost.client 200 "OK")
              (Sample.decoded Sample.client_example 0) 0)) =
  inl (errors_Errorf "unexpected status code: 200").
Proof.
  rewrite (@sign_rejects_other_status Sample.lib nat string
             (SampleHost.client 200 "OK")
             (Sample.decoded Sample.client_example 0) 0 1
             (SampleHost.bytes "{}") "client.crt+client.key"
             (SampleHost.bytes "PEM root")
             {| StatusCode := 200; resp_Body := SampleHost.bytes "OK" |}
             eq_refl eq_refl eq_refl eq_refl ltac:(discriminate)).
  reflexivity.
Defined.

(** X14 on a client whose key pair is missing. *)
Lemma sign_sends_nothing_on_local_failure_witness :
  snd (sign SampleHost.client_without_key
         (Sample.decoded Sample.client_example 0) 0) = 0 /\
  exists err msg,
    fst (fst (sign SampleHost.client_without_key
                (Sample.decoded Sample.client_example 0) 0)) =
    inl (errors_Wrap err msg).
Proof.
  destruct (@sign_sends_nothing_on_local_failure Sample.lib nat string
              SampleHost.client_without_key
              (Sample.decoded Sample.client_example 0) 0)
    as (_ & Hnone).
  destruct (Hnone eq_refl) as (Hworld & err & msg & Herr & _).
  split; [exact Hworld |]. exists err, msg. exact Herr.
Defined.
